(** * gogiturl: parsing Git remote addresses

    A shallow embedding of the two revisions of [Parse] found in the
    repository, [gogiturl.go] and the unnamed second source file, together
    with the properties of the address normalisation they implement.

    Go strings are byte strings and are modelled by [string]; Go's [int]
    indices are modelled by [Z], with [-1] for "not found" as
    [strings.Index] has it.  The generic URI parser [net/url.Parse] is an
    imported collaborator: the embedding takes it as a parameter
    [url_Parse], and a reference instance is given in module [NetURL]. *)

From Stdlib Require Import String Ascii ZArith List Lia Bool.
From Equations Require Import Equations.
Import ListNotations.

Local Open Scope string_scope.
Local Open Scope Z_scope.

(** ** Go primitives used by the sources *)

(** [len(s)]. *)
Definition len (s : string) : Z := Z.of_nat (String.length s).

Fixpoint drop (n : nat) (s : string) : string :=
  match n, s with
  | O, _ => s
  | S n', String _ s' => drop n' s'
  | S _, EmptyString => EmptyString
  end.

Fixpoint take (n : nat) (s : string) : string :=
  match n, s with
  | O, _ => EmptyString
  | S n', String c s' => String c (take n' s')
  | S _, EmptyString => EmptyString
  end.

(** [s[i:]], [s[:j]] and [s[i:j]].  Every slice of the sources except
    [url.Path[1:]] is taken at indices that are in range, by the guard
    that precedes it or by what [strings.Index] returned (lemma
    [munge_index_in_range] below); the one that can leave the range is
    modelled with its panic, see [strip_first]. *)
Definition slice_from (s : string) (i : Z) : string := drop (Z.to_nat i) s.
Definition slice_to (s : string) (j : Z) : string := take (Z.to_nat j) s.
Definition slice (s : string) (i j : Z) : string :=
  take (Z.to_nat (j - i)) (drop (Z.to_nat i) s).

(** [strings.Index(s, substr)]: the index of the first instance of
    [substr] in [s], or [-1]. *)
Fixpoint strings_Index (s substr : string) : Z :=
  if String.prefix substr s then 0
  else match s with
       | EmptyString => -1
       | String _ s' =>
           let r := strings_Index s' substr in
           if r <? 0 then -1 else r + 1
       end.

(** [strings.Replace(s, old, new, 1)]: the first instance of [old]
    replaced by [new]. *)
Definition strings_Replace1 (s old new : string) : string :=
  let i := strings_Index s old in
  if i <? 0 then s
  else (slice_to s i ++ new ++ slice_from s (i + len old))%string.

(** Byte classes of the scheme scans. *)
Definition is_letter (c : ascii) : bool :=
  (("a" <=? c) && (c <=? "z") || ("A" <=? c) && (c <=? "Z"))%char.

Definition is_scheme_extra (c : ascii) : bool :=
  (("0" <=? c) && (c <=? "9") || (c =? "+") || (c =? "-") || (c =? "."))%char.

(** Go [error] values: those made by [errors.New] and the [*url.Error]
    of [net/url]. *)
Inductive error : Type :=
| errors_New (text : string)
| url_Error (Op URL Err : string).

(** [err == nil]. *)
Definition is_nil (e : option error) : bool :=
  match e with None => true | Some _ => false end.

(** [net/url.Userinfo] and [net/url.URL]. *)
Record Userinfo : Type := mkUserinfo {
  username : string;
  password : string;
  passwordSet : bool
}.

Record URL : Type := mkURL {
  Scheme : string;
  Opaque : string;
  User : option Userinfo;
  Host : string;
  Path : string;
  RawPath : string;
  OmitHost : bool;
  ForceQuery : bool;
  RawQuery : string;
  Fragment : string;
  RawFragment : string
}.

Definition set_Path (u : URL) (p : string) : URL :=
  mkURL (Scheme u) (Opaque u) (User u) (Host u) p (RawPath u)
        (OmitHost u) (ForceQuery u) (RawQuery u) (Fragment u) (RawFragment u).

(** [type GitURL struct { url.URL }]. *)
Record GitURL : Type := mkGitURL { url_URL : URL }.

(** What a call of [Parse] does: return [(u, nil)], return [(nil, err)],
    or panic at run time. *)
Inductive Outcome : Type :=
| Ok (u : GitURL)
| Err (e : error)
| Panic (msg : string).

(** An outcome together with the strings that were handed to
    [url.Parse], in call order. *)
Record Run : Type := mkRun {
  result : Outcome;
  parsed : list string
}.

(** [url.Path = url.Path[1:]; &GitURL{*url}]: slicing an empty [Path]
    panics. *)
Definition strip_first (u : URL) : Outcome :=
  match Path u with
  | EmptyString => Panic "slice bounds out of range [1:0]"
  | String _ p => Ok (mkGitURL (set_Path u p))
  end.

(** The type of the collaborator: [inl u] is [(u, nil)], [inr err] is
    [(nil, err)]. *)
Definition Parser : Type := string -> URL + error.

(** ** [gogiturl.go] *)

Module Gogiturl.

(** [getScheme], lines 94-116: the loop at index [i], with [rest] the
    bytes of [rawurl] from [i] on. *)
Fixpoint getScheme_loop (rawurl : string) (i : Z) (rest : string)
  : string * string * option error :=
  match rest with
  | EmptyString => ("", rawurl, Some (errors_New "missing protocol scheme"))
  | String c rest' =>
      if is_letter c then getScheme_loop rawurl (i + 1) rest'
      else if is_scheme_extra c then
        if i =? 0 then ("", rawurl, Some (errors_New "missing protocol scheme"))
        else getScheme_loop rawurl (i + 1) rest'
      else if (c =? ":")%char then
        if i =? 0 then ("", "", Some (errors_New "missing protocol scheme"))
        else (slice_to rawurl i, slice_from rawurl (i + 1), None)
      else ("", rawurl, Some (errors_New "missing protocol scheme"))
  end.

Definition getScheme (rawurl : string) : string * string * option error :=
  getScheme_loop rawurl 0 rawurl.

(** [errors.New] of lines 74-75. *)
Definition ErrMissingDelimiter : error :=
  errors_New ("No colon (:) in URL to delimit host:path boundary; " ++
              "unable to munge Git remote edge case").

(** How many more times [parse] can munge its argument: a string whose
    scheme scan succeeds is given up on at line 60, and a munged string
    starts with the scheme [ssh]. *)
Definition munge_budget (rawurl : string) : nat :=
  if is_nil (snd (getScheme rawurl)) then 0%nat else 1%nat.

(** A value together with the equation that names it, so that the
    branch taken is known where [parse] calls itself. *)
Definition inspect {A : Type} (a : A) : {b : A | a = b} := exist _ a eq_refl.

Section WithParser.

Variable url_Parse : Parser.

(** [parse], lines 22-91. *)
Equations? parse (rawurl origrawurl : string) : Run
  by wf (munge_budget rawurl) lt :=
parse rawurl origrawurl with url_Parse rawurl := {
  | inl url :=
      mkRun (if negb (rawurl =? origrawurl)%string
             then strip_first url
             else Ok (mkGitURL url))
            [rawurl];
  | inr err with strings_Index rawurl ":" <? 0 := {
    | true := mkRun (Err err) [rawurl];
    | false with inspect (getScheme rawurl) := {
      | exist _ (scheme, _, schemeerr) Hs
          with inspect (is_nil schemeerr || negb (scheme =? "")%string) := {
        | exist _ true _ := mkRun (Err err) [rawurl];
        | exist _ false Hc :=
            let i := strings_Index rawurl "]" in
            let j := if i <? 0 then strings_Index rawurl ":"
                     else strings_Index (slice_from rawurl i) ":" in
            if j <? 0 then mkRun (Err ErrMissingDelimiter) [rawurl]
            else
              let j := if i >=? 0 then j + i else j in
              let mungedurl :=
                ("ssh://" ++ slice_to rawurl j ++
                 strings_Replace1 (slice_from rawurl j) ":" "/")%string in
              let r := parse mungedurl origrawurl in
              mkRun (result r) (rawurl :: parsed r) } } } }.
Proof.
  unfold munge_budget. rewrite Hs. cbn [snd].
  apply orb_false_elim in Hc. destruct Hc as [Hc _]. rewrite Hc.
  cbn. lia.
Qed.

(** [Parse], lines 16-19. *)
Definition Parse (rawurl : string) : Run := parse rawurl rawurl.

(** The guards of lines 25, 56 and 60 under which [parse] goes on to
    munge [rawurl]: the direct attempt failed, there is a colon, and the
    scheme scan found no scheme. *)
Definition shorthand_candidate (rawurl : string) : bool :=
  match url_Parse rawurl with
  | inl _ => false
  | inr _ =>
      negb (strings_Index rawurl ":" <? 0)
      && let '(scheme, _, schemeerr) := getScheme rawurl in
         negb (is_nil schemeerr || negb (scheme =? "")%string)
  end.

End WithParser.

End Gogiturl.

(** ** The second source file, another revision of the same package *)

Module Part000.

(** [getscheme], lines 96-120: the loop at index [i], with [rest] the
    bytes of [rawurl] from [i] on. *)
Fixpoint getscheme_loop (rawurl : string) (urllen i : Z) (rest : string)
  : string * string * option error :=
  match rest with
  | EmptyString => ("", "", Some (errors_New "no scheme"))
  | String c rest' =>
      if is_letter c then getscheme_loop rawurl urllen (i + 1) rest'
      else if is_scheme_extra c then
        if i =? 0 then ("", "", Some (errors_New "no scheme"))
        else getscheme_loop rawurl urllen (i + 1) rest'
      else if (c =? ":")%char then
        if (i >? 0) && (urllen >=? i + 3)
           && (slice rawurl (i + 1) (i + 3) =? "//")%string
        then
          if urllen >=? i + 4
          then (slice_to rawurl i, slice_from rawurl (i + 4), None)
          else (slice_to rawurl i, "", None)
        else ("", "", Some (errors_New "no scheme"))
      else ("", "", Some (errors_New "invalid character in scheme"))
  end.

Definition getscheme (rawurl : string) : string * string * option error :=
  let urllen := len rawurl in
  getscheme_loop rawurl urllen 0 rawurl.

(** [errors.New] of line 23 and of lines 78-79. *)
Definition ErrSchemeOnly : error :=
  errors_New "malformed URL contains scheme only".

Definition ErrMissingDelimiter : error :=
  errors_New ("no colon (:) in URL to delimit host:path " ++
              "boundary; unable to munge Git remote edge case").

(** [mungeGitURL], lines 54-93. *)
Definition mungeGitURL (rawurl : string) : string * option error :=
  let i := strings_Index rawurl "]" in
  let j := if i <? 0 then strings_Index rawurl ":"
           else strings_Index (slice_from rawurl i) ":" in
  if j <? 0 then ("", Some ErrMissingDelimiter)
  else
    let j := if i >=? 0 then j + i else j in
    let mungedurl :=
      ("ssh://" ++ slice_to rawurl j ++
       strings_Replace1 (slice_from rawurl j) ":" "/")%string in
    (mungedurl, None).

(** The guards of lines 22, 27 and 28 under which [Parse] calls
    [mungeGitURL]. *)
Definition shorthand_candidate (rawurl : string) : bool :=
  let '(scheme, urlremainder, err) := getscheme rawurl in
  negb (match err, urlremainder with
        | None, EmptyString => true
        | _, _ => false
        end)
  && (negb (is_nil err) || (scheme =? "")%string)
  && negb (strings_Index rawurl ":" <? 0).

Section WithParser.

Variable url_Parse : Parser.

(** Lines 41-50: [url.Parse] returns a nil [*URL] with its error, and
    [&GitURL{*url}] dereferences it. *)
Definition parse_and_revert (rawurl : string) (munged : bool) : Run :=
  match url_Parse rawurl with
  | inl url =>
      mkRun (if munged then strip_first url else Ok (mkGitURL url)) [rawurl]
  | inr _ =>
      mkRun (Panic "invalid memory address or nil pointer dereference")
            [rawurl]
  end.

(** [Parse], lines 16-51. *)
Definition Parse (rawurl : string) : Run :=
  let munged := false in
  let '(scheme, urlremainder, err) := getscheme rawurl in
  match err, urlremainder with
  | None, EmptyString => mkRun (Err ErrSchemeOnly) []
  | _, _ =>
      if negb (is_nil err) || (scheme =? "")%string
      then
        if strings_Index rawurl ":" <? 0
        then parse_and_revert ("file:///" ++ rawurl) true
        else
          match mungeGitURL rawurl with
          | (_, Some err) => mkRun (Err err) []
          | (mungedurl, None) => parse_and_revert mungedurl true
          end
      else parse_and_revert rawurl munged
  end.

End WithParser.

End Part000.

(** ** A reference instance of the collaborator

    [NetURL.Parse] follows Go's [net/url.Parse] step by step: fragment
    cut, control-byte check, scheme scan, query cut, opaque form, the
    first-segment rule, the authority with its user-info and port check,
    and percent-decoding of host, user-info, path and fragment.  The
    package is imported by the repository, not part of it, so the
    properties below are stated for an arbitrary [Parser] and this
    instance serves to evaluate them on concrete addresses.  It does not
    check that a bracketed host is a well-formed IPv6 literal, and it
    takes the port after the last colon of a host without refusing other
    colons before it; recent releases of Go do both, and the hosts
    evaluated below pass both checks. *)

Module NetURL.

Inductive encoding : Type :=
| encodePath | encodePathSegment | encodeHost | encodeZone
| encodeUserPassword | encodeQueryComponent | encodeFragment.

Definition is_host_mode (m : encoding) : bool :=
  match m with encodeHost | encodeZone => true | _ => false end.

Definition is_alnum (c : ascii) : bool :=
  (is_letter c || ("0" <=? c) && (c <=? "9"))%char.

Definition byte_in (c : ascii) (set : string) : bool :=
  0 <=? strings_Index set (String c EmptyString).

Definition ishex (c : ascii) : bool :=
  (("0" <=? c) && (c <=? "9") || ("a" <=? c) && (c <=? "f")
   || ("A" <=? c) && (c <=? "F"))%char.

Definition unhex (c : ascii) : N :=
  let n := N_of_ascii c in
  if (("0" <=? c) && (c <=? "9"))%char then (n - 48)%N
  else if (("a" <=? c) && (c <=? "f"))%char then (n - 97 + 10)%N
  else if (("A" <=? c) && (c <=? "F"))%char then (n - 65 + 10)%N
  else 0%N.

Definition shouldEscape (c : ascii) (mode : encoding) : bool :=
  if is_alnum c then false
  else if is_host_mode mode
          && (byte_in c "!$&'()*+,;=:[]<>" || (c =? "034")%char)
  then false
  else if byte_in c "-_.~" then false
  else if byte_in c "$&+,/:;=?@"
          && match mode with
             | encodePath | encodePathSegment | encodeUserPassword
             | encodeQueryComponent | encodeFragment => true
             | _ => false
             end
  then match mode with
       | encodePath => (c =? "?")%char
       | encodePathSegment => byte_in c "/;,?"
       | encodeUserPassword => byte_in c "@/?:"
       | encodeQueryComponent => true
       | _ => false
       end
  else if match mode with encodeFragment => byte_in c "!()*" | _ => false end
  then false
  else true.

(** [strconv.Quote] on text that needs no escaping. *)
Definition Quote (s : string) : string :=
  String "034" (s ++ String "034" EmptyString).

Definition upperhex (n : N) : ascii :=
  match String.get (N.to_nat n) "0123456789ABCDEF" with
  | Some c => c
  | None => "0"%char
  end.

Fixpoint escape (s : string) (mode : encoding) : string :=
  match s with
  | EmptyString => EmptyString
  | String c s' =>
      if shouldEscape c mode then
        if (c =? " ")%char && match mode with
                              | encodeQueryComponent => true
                              | _ => false
                              end
        then String "+" (escape s' mode)
        else String "%" (String (upperhex (N_of_ascii c / 16))
                           (String (upperhex (N_of_ascii c mod 16))
                                   (escape s' mode)))
      else String c (escape s' mode)
  end.

(** [unescape]: validation and decoding in one pass; [inr] carries the
    message of the [EscapeError] or [InvalidHostError]. *)
Fixpoint unescape (s : string) (mode : encoding) : string + string :=
  match s with
  | EmptyString => inl EmptyString
  | String c rest =>
      if (c =? "%")%char then
        match rest with
        | String a (String b rest') =>
            if ishex a && ishex b then
              let v := ascii_of_N (unhex a * 16 + unhex b) in
              let esc := String c (String a (String b EmptyString)) in
              if match mode with encodeHost => true | _ => false end
                 && (unhex a <? 8)%N && negb (esc =? "%25")%string
              then inr ("invalid URL escape " ++ Quote esc)%string
              else if match mode with encodeZone => true | _ => false end
                      && negb (esc =? "%25")%string
                      && negb (v =? " ")%char && shouldEscape v encodeHost
              then inr ("invalid URL escape " ++ Quote esc)%string
              else match unescape rest' mode with
                   | inl t => inl (String v t)
                   | inr e => inr e
                   end
            else inr ("invalid URL escape " ++ Quote (take 3 s))%string
        | _ => inr ("invalid URL escape " ++ Quote (take 3 s))%string
        end
      else if is_host_mode mode && (c <? "128")%char
              && shouldEscape c encodeHost
      then inr ("invalid character " ++ Quote (String c EmptyString)
                ++ " in host name")%string
      else match unescape rest mode with
           | inl t => inl (String c t)
           | inr e => inr e
           end
  end.

(** [strings.Cut], [strings.LastIndex], [strings.Count] for a one-byte
    separator, [strings.HasSuffix], [strings.ToLower] on ASCII. *)
Definition Cut (s sep : string) : string * string * bool :=
  let i := strings_Index s sep in
  if i >=? 0 then (slice_to s i, slice_from s (i + len sep), true)
  else (s, "", false).

Fixpoint strings_LastIndex (s substr : string) : Z :=
  match s with
  | EmptyString => if String.prefix substr s then 0 else -1
  | String _ s' =>
      let r := strings_LastIndex s' substr in
      if r >=? 0 then r + 1
      else if String.prefix substr s then 0 else -1
  end.

Fixpoint strings_Count (s substr : string) : Z :=
  match s with
  | EmptyString => 0
  | String _ s' =>
      (if String.prefix substr s then 1 else 0) + strings_Count s' substr
  end.

Definition HasSuffix (s suffix : string) : bool :=
  (len suffix <=? len s)
  && (slice_from s (len s - len suffix) =? suffix)%string.

Definition lower_byte (c : ascii) : ascii :=
  if (("A" <=? c) && (c <=? "Z"))%char
  then ascii_of_N (N_of_ascii c + 32)
  else c.

Fixpoint ToLower (s : string) : string :=
  match s with
  | EmptyString => EmptyString
  | String c s' => String (lower_byte c) (ToLower s')
  end.

Fixpoint stringContainsCTLByte (s : string) : bool :=
  match s with
  | EmptyString => false
  | String b s' =>
      ((b <? " ") || (b =? "127"))%char || stringContainsCTLByte s'
  end.

(** The scheme scan of [net/url]: it fails only on a leading colon. *)
Fixpoint getScheme_loop (rawURL : string) (i : Z) (rest : string)
  : string * string * option string :=
  match rest with
  | EmptyString => ("", rawURL, None)
  | String c rest' =>
      if is_letter c then getScheme_loop rawURL (i + 1) rest'
      else if is_scheme_extra c then
        if i =? 0 then ("", rawURL, None)
        else getScheme_loop rawURL (i + 1) rest'
      else if (c =? ":")%char then
        if i =? 0 then ("", "", Some "missing protocol scheme")
        else (slice_to rawURL i, slice_from rawURL (i + 1), None)
      else ("", rawURL, None)
  end.

Definition getScheme (rawURL : string) : string * string * option string :=
  getScheme_loop rawURL 0 rawURL.

Fixpoint all_digits (s : string) : bool :=
  match s with
  | EmptyString => true
  | String b s' => (("0" <=? b) && (b <=? "9"))%char && all_digits s'
  end.

Definition validOptionalPort (port : string) : bool :=
  match port with
  | EmptyString => true
  | String c digits => (c =? ":")%char && all_digits digits
  end.

Fixpoint validUserinfo (s : string) : bool :=
  match s with
  | EmptyString => true
  | String r s' =>
      (is_alnum r || byte_in r "-._:~!$&'()*+,;=%@") && validUserinfo s'
  end.

Definition parseHost (host : string) : string + string :=
  let plain := unescape host encodeHost in
  if String.prefix "[" host then
    let i := strings_LastIndex host "]" in
    if i <? 0 then inr "missing ']' in host"
    else
      let colonPort := slice_from host (i + 1) in
      if negb (validOptionalPort colonPort)
      then inr ("invalid port " ++ Quote colonPort ++ " after host")%string
      else
        let zone := strings_Index (slice_to host i) "%25" in
        if zone >=? 0 then
          match unescape (slice_to host zone) encodeHost,
                unescape (slice host zone i) encodeZone,
                unescape (slice_from host i) encodeHost with
          | inl host1, inl host2, inl host3 =>
              inl (host1 ++ host2 ++ host3)%string
          | inr e, _, _ | _, inr e, _ | _, _, inr e => inr e
          end
        else plain
  else
    let i := strings_LastIndex host ":" in
    if (i >=? 0) && negb (validOptionalPort (slice_from host i))
    then inr ("invalid port " ++ Quote (slice_from host i)
              ++ " after host")%string
    else plain.

Definition parseAuthority (authority : string)
  : option Userinfo * string + string :=
  let i := strings_LastIndex authority "@" in
  match (if i <? 0 then parseHost authority
         else parseHost (slice_from authority (i + 1))) with
  | inr e => inr e
  | inl host =>
      if i <? 0 then inl (None, host)
      else
        let userinfo := slice_to authority i in
        if negb (validUserinfo userinfo) then inr "net/url: invalid userinfo"
        else if strings_Index userinfo ":" <? 0 then
          match unescape userinfo encodeUserPassword with
          | inr e => inr e
          | inl name => inl (Some (mkUserinfo name "" false), host)
          end
        else
          let '(name, pass, _) := Cut userinfo ":" in
          match unescape name encodeUserPassword,
                unescape pass encodeUserPassword with
          | inl name, inl pass => inl (Some (mkUserinfo name pass true), host)
          | inr e, _ | _, inr e => inr e
          end
  end.

(** [parse(rawURL, viaRequest = false)]. *)
Definition parse (rawURL : string) : URL + string :=
  if stringContainsCTLByte rawURL
  then inr "net/url: invalid control character in URL"
  else if (rawURL =? "*")%string
  then inl (mkURL "" "" None "" "*" "" false false "" "" "")
  else
    match getScheme rawURL with
    | (_, _, Some e) => inr e
    | (scheme, rest, None) =>
        let scheme := ToLower scheme in
        let '(rest, forceQuery, rawQuery) :=
          if HasSuffix rest "?" && (strings_Count rest "?" =? 1)
          then (slice_to rest (len rest - 1), true, "")
          else let '(r, q, _) := Cut rest "?" in (r, false, q) in
        if negb (String.prefix "/" rest) && negb (scheme =? "")%string
        then inl (mkURL scheme rest None "" "" "" false forceQuery rawQuery
                        "" "")
        else if negb (String.prefix "/" rest)
                && (0 <=? strings_Index (fst (fst (Cut rest "/"))) ":")
        then inr "first path segment in URL cannot contain colon"
        else
          let located :=
            if (negb (scheme =? "")%string || negb (String.prefix "///" rest))
               && String.prefix "//" rest
            then
              let authority := slice_from rest 2 in
              let i := strings_Index authority "/" in
              let '(authority, rest) :=
                if i >=? 0
                then (slice_to authority i, slice_from authority i)
                else (authority, "") in
              match parseAuthority authority with
              | inl (user, host) => inl (user, host, false, rest)
              | inr e => inr e
              end
            else
              inl (None, "",
                   negb (scheme =? "")%string && String.prefix "/" rest,
                   rest) in
          match located with
          | inr e => inr e
          | inl (user, host, omitHost, rest) =>
              match unescape rest encodePath with
              | inr e => inr e
              | inl path =>
                  let rawPath :=
                    if (escape path encodePath =? rest)%string
                    then "" else rest in
                  inl (mkURL scheme "" user host path rawPath omitHost
                             forceQuery rawQuery "" "")
              end
          end
    end.

Definition setFragment (u : URL) (f : string) : URL + string :=
  match unescape f encodeFragment with
  | inr e => inr e
  | inl frag =>
      let rawFragment :=
        if (escape frag encodeFragment =? f)%string then "" else f in
      inl (mkURL (Scheme u) (Opaque u) (User u) (Host u) (Path u) (RawPath u)
                 (OmitHost u) (ForceQuery u) (RawQuery u) frag rawFragment)
  end.

(** [url.Parse]. *)
Definition Parse : Parser := fun rawURL =>
  let '(u, frag, _) := Cut rawURL "#" in
  match parse u with
  | inr e => inr (url_Error "parse" u e)
  | inl url =>
      if (frag =? "")%string then inl url
      else match setFragment url frag with
           | inr e => inr (url_Error "parse" rawURL e)
           | inl url => inl url
           end
  end.

End NetURL.

(** ** Notions used to state the properties *)

(** The byte of [s] at index [k]. *)
Definition byte_at (s : string) (k : Z) : option ascii :=
  if k <? 0 then None else String.get (Z.to_nat k) s.

(** [d] is the index of the first colon of [s] at or after index [i]. *)
Definition first_colon_from (s : string) (i d : Z) : Prop :=
  i <= d /\ byte_at s d = Some ":"%char
  /\ forall k, i <= k < d -> byte_at s k <> Some ":"%char.

(** A scheme token: a letter followed by letters, digits, [+], [-]
    and [.]. *)
Fixpoint scheme_tail (s : string) : bool :=
  match s with
  | EmptyString => true
  | String c s' => (is_letter c || is_scheme_extra c) && scheme_tail s'
  end.

Definition scheme_token (s : string) : bool :=
  match s with
  | EmptyString => false
  | String c s' => is_letter c && scheme_tail s'
  end.

(** A parser reports the scheme it is given: when the scheme scan of
    [net/url], which [Gogiturl.getScheme] repeats, finds the token
    [scheme], the parsed URL carries it in lower case. *)
Definition reports_scheme (p : Parser) : Prop :=
  forall s scheme rest u,
    Gogiturl.getScheme s = (scheme, rest, None) ->
    p s = inl u ->
    Scheme u = NetURL.ToLower scheme.

(** The address with [ssh://] put in front and the colon at index [d]
    turned into a slash. *)
Definition munged_at (rawurl : string) (d : Z) : string :=
  ("ssh://" ++ slice_to rawurl d ++ String "/" (slice_from rawurl (d + 1)))
    %string.

(** A run that succeeds with the given scheme, host and path. *)
Definition parses_to (r : Run) (scheme host path : string) : Prop :=
  exists g, result r = Ok g
            /\ Scheme (url_URL g) = scheme
            /\ Host (url_URL g) = host
            /\ Path (url_URL g) = path.

(** Both revisions, run with the reference parser, succeed with the
    given scheme, host and path. *)
Definition both_parse_to (rawurl scheme host path : string) : Prop :=
  parses_to (Gogiturl.Parse NetURL.Parse rawurl) scheme host path
  /\ parses_to (Part000.Parse NetURL.Parse rawurl) scheme host path.

(** ** Byte strings, slices and [strings.Index] *)

Lemma take_drop (n : nat) (s : string) : (take n s ++ drop n s)%string = s.
Proof.
  revert s. induction n as [|n IH]; intros [|c s]; simpl; try reflexivity.
  now rewrite IH.
Qed.

Lemma append_assoc (a b c : string) :
  ((a ++ b) ++ c)%string = (a ++ (b ++ c))%string.
Proof. induction a as [|d a IH]; simpl; [reflexivity | now rewrite IH]. Qed.

Lemma drop_app_length (a b : string) : drop (String.length a) (a ++ b) = b.
Proof. induction a as [|c a IH]; simpl; auto. Qed.

Lemma take_app_length (a b : string) : take (String.length a) (a ++ b) = a.
Proof. induction a as [|c a IH]; simpl; [now destruct b | now rewrite IH]. Qed.

Lemma slice_to_app (a b : string) : slice_to (a ++ b) (len a) = a.
Proof. unfold slice_to, len. rewrite Nat2Z.id. apply take_app_length. Qed.

Lemma slice_from_app (a b : string) : slice_from (a ++ b) (len a) = b.
Proof. unfold slice_from, len. rewrite Nat2Z.id. apply drop_app_length. Qed.

Lemma len_nonneg (s : string) : 0 <= len s.
Proof. unfold len. lia. Qed.

Lemma len_cons (c : ascii) (s : string) : len (String c s) = len s + 1.
Proof. unfold len. simpl String.length. lia. Qed.

Lemma len_app (a b : string) : len (a ++ b) = len a + len b.
Proof.
  unfold len. induction a as [|c a IH]; simpl String.length;
    simpl String.append; [lia|].
  simpl String.length. lia.
Qed.

Lemma byte_at_cons (c : ascii) (s : string) (k : Z) :
  0 <= k -> byte_at (String c s) (k + 1) = byte_at s k.
Proof.
  intros Hk. unfold byte_at.
  destruct (Z.ltb_spec (k + 1) 0); [lia|].
  destruct (Z.ltb_spec k 0); [lia|].
  replace (Z.to_nat (k + 1)) with (S (Z.to_nat k)) by lia. reflexivity.
Qed.

Lemma byte_at_0 (c : ascii) (s : string) : byte_at (String c s) 0 = Some c.
Proof. reflexivity. Qed.

(** [strings.Index] for a one-byte separator, one byte at a time. *)
Lemma Index_byte_cons (c d : ascii) (s : string) :
  strings_Index (String d s) (String c EmptyString) =
  if (c =? d)%char then 0
  else if strings_Index s (String c EmptyString) <? 0 then -1
       else strings_Index s (String c EmptyString) + 1.
Proof.
  cbn [strings_Index String.prefix].
  destruct (ascii_dec c d) as [->|Hne].
  - rewrite Ascii.eqb_refl. now destruct s.
  - apply Ascii.eqb_neq in Hne. now rewrite Hne.
Qed.

Lemma Index_byte_nil (c : ascii) :
  strings_Index EmptyString (String c EmptyString) = -1.
Proof. reflexivity. Qed.

Lemma Index_byte_range (c : ascii) (s : string) :
  -1 <= strings_Index s (String c EmptyString) < len s
  \/ (s = EmptyString /\ strings_Index s (String c EmptyString) = -1).
Proof.
  induction s as [|d s IH].
  - right. split; reflexivity.
  - left. rewrite Index_byte_cons, len_cons.
    destruct (c =? d)%char; [pose proof (len_nonneg s); lia|].
    destruct (Z.ltb_spec (strings_Index s (String c EmptyString)) 0).
    + pose proof (len_nonneg s); lia.
    + destruct IH as [IH|[_ IH]]; lia.
Qed.

Lemma Index_byte_bounds (c : ascii) (s : string) :
  -1 <= strings_Index s (String c EmptyString) <= len s.
Proof.
  destruct (Index_byte_range c s) as [H|[-> H]]; [lia|].
  rewrite H. cbn. lia.
Qed.

(** A found index splits the string at the first occurrence. *)
Lemma Index_byte_found (c : ascii) (s : string) (j : Z) :
  strings_Index s (String c EmptyString) = j -> 0 <= j ->
  exists pre post,
    s = (pre ++ String c post)%string /\ len pre = j
    /\ strings_Index pre (String c EmptyString) = -1.
Proof.
  revert j. induction s as [|d s IH]; intros j Hj Hpos.
  - rewrite Index_byte_nil in Hj. lia.
  - rewrite Index_byte_cons in Hj.
    destruct (Ascii.eqb_spec c d) as [->|Hne].
    + exists EmptyString, s. subst j. repeat split.
    + destruct (Z.ltb_spec (strings_Index s (String c EmptyString)) 0);
        [lia|].
      destruct (IH (j - 1)) as (pre & post & -> & Hlen & Hno); [lia|lia|].
      exists (String d pre), post. repeat split.
      * rewrite len_cons. lia.
      * rewrite Index_byte_cons.
        apply Ascii.eqb_neq in Hne. rewrite Hne, Hno. reflexivity.
Qed.

Lemma Index_byte_absent (c : ascii) (s : string) (k : Z) :
  strings_Index s (String c EmptyString) = -1 -> byte_at s k <> Some c.
Proof.
  revert k. induction s as [|d s IH]; intros k Hno.
  - unfold byte_at. destruct (k <? 0); [discriminate|].
    now destruct (Z.to_nat k).
  - rewrite Index_byte_cons in Hno.
    destruct (Ascii.eqb_spec c d) as [->|Hne]; [lia|].
    destruct (Z.ltb_spec (strings_Index s (String c EmptyString)) 0);
      [|pose proof (Index_byte_bounds c s); lia].
    assert (Hs : strings_Index s (String c EmptyString) = -1)
      by (pose proof (Index_byte_bounds c s); lia).
    destruct (Z.ltb_spec k 0) as [Hk|Hk].
    + unfold byte_at. apply Z.ltb_lt in Hk. now rewrite Hk.
    + destruct (Z.eq_dec k 0) as [->|Hk0].
      * rewrite byte_at_0. congruence.
      * replace k with ((k - 1) + 1) by lia.
        rewrite byte_at_cons by lia. now apply IH.
Qed.

Lemma byte_at_app_right (a b : string) (k : Z) :
  0 <= k -> byte_at (a ++ b) (len a + k) = byte_at b k.
Proof.
  intros Hk. induction a as [|c a IH].
  - cbn. f_equal.
  - rewrite len_cons. simpl String.append.
    replace (len a + 1 + k) with ((len a + k) + 1) by lia.
    rewrite byte_at_cons by (pose proof (len_nonneg a); lia). exact IH.
Qed.

Lemma byte_at_app_left (a b : string) (k : Z) :
  k < len a -> byte_at (a ++ b) k = byte_at a k.
Proof.
  revert k. induction a as [|c a IH]; intros k Hk.
  - cbn in Hk. unfold byte_at.
    destruct (Z.ltb_spec k 0); [reflexivity|lia].
  - simpl String.append. rewrite len_cons in Hk.
    destruct (Z.ltb_spec k 0) as [Hk0|Hk0].
    + unfold byte_at. apply Z.ltb_lt in Hk0. now rewrite Hk0.
    + destruct (Z.eq_dec k 0) as [->|Hne]; [reflexivity|].
      replace k with ((k - 1) + 1) by lia.
      rewrite !byte_at_cons by lia. apply IH. lia.
Qed.

Lemma Index_byte_first (c : ascii) (s : string) (j : Z) :
  0 <= j -> byte_at s j = Some c ->
  (forall k, 0 <= k < j -> byte_at s k <> Some c) ->
  strings_Index s (String c EmptyString) = j.
Proof.
  revert j. induction s as [|d s IH]; intros j Hj Hat Hbefore.
  - unfold byte_at in Hat. destruct (j <? 0); [discriminate|].
    now destruct (Z.to_nat j).
  - rewrite Index_byte_cons.
    destruct (Z.eq_dec j 0) as [->|Hne].
    + rewrite byte_at_0 in Hat. injection Hat as ->.
      now rewrite Ascii.eqb_refl.
    + destruct (Ascii.eqb_spec c d) as [->|Hcd].
      * exfalso. apply (Hbefore 0); [lia|]. apply byte_at_0.
      * replace j with ((j - 1) + 1) in Hat by lia.
        rewrite byte_at_cons in Hat by lia.
        rewrite (IH (j - 1)); [|lia|exact Hat|].
        -- destruct (Z.ltb_spec (j - 1) 0); lia.
        -- intros k Hk. rewrite <- (byte_at_cons d) by lia.
           apply Hbefore. lia.
Qed.

Lemma slice_from_byte (s : string) (d : Z) (c : ascii) :
  0 <= d -> byte_at s d = Some c ->
  slice_from s d = String c (slice_from s (d + 1)).
Proof.
  intros Hd Hat. unfold byte_at in Hat.
  destruct (Z.ltb_spec d 0); [lia|].
  unfold slice_from. replace (Z.to_nat (d + 1)) with (S (Z.to_nat d)) by lia.
  revert Hat. generalize (Z.to_nat d) as n. clear.
  intros n. revert s. induction n as [|n IH]; intros [|a s] Hat;
    simpl in *; try discriminate.
  - now injection Hat as ->.
  - now apply IH.
Qed.

Lemma get_drop (n k : nat) (s : string) :
  String.get k (drop n s) = String.get (n + k) s.
Proof.
  revert s. induction n as [|n IH]; intros [|c s]; simpl; auto.
Qed.

Lemma byte_at_slice_from (s : string) (i k : Z) :
  0 <= i -> 0 <= k -> byte_at (slice_from s i) k = byte_at s (i + k).
Proof.
  intros Hi Hk. unfold byte_at, slice_from.
  destruct (Z.ltb_spec k 0); [lia|].
  destruct (Z.ltb_spec (i + k) 0); [lia|].
  rewrite get_drop. f_equal. lia.
Qed.

(** ** The two scheme scans *)

Lemma getScheme_loop_error_scheme rawurl i rest scheme path e :
  Gogiturl.getScheme_loop rawurl i rest = (scheme, path, Some e) ->
  scheme = EmptyString.
Proof.
  revert i. induction rest as [|c rest IH]; intros i H; simpl in H.
  - now injection H.
  - destruct (is_letter c); [now apply IH in H|].
    destruct (is_scheme_extra c).
    + destruct (i =? 0); [now injection H | now apply IH in H].
    + destruct (c =? ":")%char; [|now injection H].
      destruct (i =? 0); [now injection H | discriminate].
Qed.

(** A successful scan of [gogiturl.go] stopped at a colon. *)
Lemma getScheme_loop_colon rawurl i rest :
  snd (Gogiturl.getScheme_loop rawurl i rest) = None ->
  0 <= strings_Index rest ":".
Proof.
  revert i. induction rest as [|c rest IH]; intros i H; simpl in H.
  - discriminate.
  - rewrite Index_byte_cons.
    destruct (Ascii.eqb_spec ":" c) as [<-|Hne]; [lia|].
    assert (Hrec : forall j,
               snd (Gogiturl.getScheme_loop rawurl j rest) = None ->
               0 <= (if strings_Index rest ":" <? 0 then -1
                     else strings_Index rest ":" + 1)).
    { intros j Hj. apply IH in Hj.
      destruct (Z.ltb_spec (strings_Index rest ":") 0); lia. }
    destruct (is_letter c); [now apply Hrec in H|].
    destruct (is_scheme_extra c).
    + destruct (i =? 0); [discriminate | now apply Hrec in H].
    + destruct (Ascii.eqb_spec c ":") as [->|_]; [congruence|discriminate].
Qed.

(** The scan of the second file succeeds only where that of
    [gogiturl.go] does, and with the same token. *)
Lemma getscheme_loop_refines rawurl urllen i rest scheme rem :
  Part000.getscheme_loop rawurl urllen i rest = (scheme, rem, None) ->
  exists path, Gogiturl.getScheme_loop rawurl i rest = (scheme, path, None).
Proof.
  revert i. induction rest as [|c rest IH]; intros i H; simpl in H |- *.
  - discriminate.
  - destruct (is_letter c); [now apply IH|].
    destruct (is_scheme_extra c).
    + destruct (i =? 0); [discriminate | now apply IH].
    + destruct (c =? ":")%char; [|discriminate].
      destruct (Z.gtb_spec i 0) as [Hi|Hi]; simpl in H; [|discriminate].
      destruct (Z.eqb_spec i 0); [lia|].
      destruct (urllen >=? i + 3); simpl in H; [|discriminate].
      destruct (slice rawurl (i + 1) (i + 3) =? "//")%string;
        [|discriminate].
      destruct (urllen >=? i + 4); injection H as <- _; eauto.
Qed.

Lemma getscheme_refines rawurl scheme rem :
  Part000.getscheme rawurl = (scheme, rem, None) ->
  exists path, Gogiturl.getScheme rawurl = (scheme, path, None).
Proof. apply getscheme_loop_refines. Qed.

Lemma getscheme_loop_scheme_nonempty rawurl urllen i rest scheme rem :
  rawurl <> EmptyString ->
  Part000.getscheme_loop rawurl urllen i rest = (scheme, rem, None) ->
  scheme <> EmptyString.
Proof.
  intros Hraw. revert i.
  induction rest as [|c rest IH]; intros i H; simpl in H.
  - discriminate.
  - destruct (is_letter c); [now apply IH in H|].
    destruct (is_scheme_extra c).
    + destruct (i =? 0); [discriminate | now apply IH in H].
    + destruct (c =? ":")%char; [|discriminate].
      destruct (Z.gtb_spec i 0) as [Hi|Hi]; simpl in H; [|discriminate].
      assert (Hs : scheme = slice_to rawurl i).
      { destruct (urllen >=? i + 3); simpl in H; [|discriminate].
        destruct (slice rawurl (i + 1) (i + 3) =? "//")%string;
          [|discriminate].
        destruct (urllen >=? i + 4); now injection H. }
      subst scheme. unfold slice_to.
      destruct rawurl as [|a r]; [congruence|].
      destruct (Z.to_nat i) eqn:E; [lia|]. discriminate.
Qed.

Lemma getscheme_scheme_nonempty rawurl scheme rem :
  Part000.getscheme rawurl = (scheme, rem, None) -> scheme <> EmptyString.
Proof.
  intros H. destruct rawurl as [|a r]; [discriminate|].
  eapply getscheme_loop_scheme_nonempty; [|exact H]. discriminate.
Qed.

(** Without a colon the scan of the second file finds no scheme. *)
Lemma getscheme_loop_no_colon rawurl urllen i rest :
  strings_Index rest ":" < 0 ->
  snd (Part000.getscheme_loop rawurl urllen i rest) <> None.
Proof.
  revert i. induction rest as [|c rest IH]; intros i Hno; simpl.
  - discriminate.
  - rewrite Index_byte_cons in Hno.
    destruct (Ascii.eqb_spec ":" c) as [<-|Hne]; [lia|].
    assert (Hrest : strings_Index rest ":" < 0).
    { destruct (Z.ltb_spec (strings_Index rest ":") 0); lia. }
    destruct (is_letter c); [now apply IH|].
    destruct (is_scheme_extra c).
    + destruct (i =? 0); [discriminate | now apply IH].
    + destruct (Ascii.eqb_spec c ":") as [->|_]; [congruence|discriminate].
Qed.

(** Scanning a scheme token that a colon follows. *)
Lemma getScheme_loop_token rawurl tok tail i :
  0 < i -> scheme_tail tok = true ->
  Gogiturl.getScheme_loop rawurl i (tok ++ String ":" tail) =
  (slice_to rawurl (i + len tok), slice_from rawurl (i + len tok + 1), None).
Proof.
  revert i. induction tok as [|c tok IH]; intros i Hi Htok.
  - cbn [String.append Gogiturl.getScheme_loop].
    replace (is_letter ":") with false by reflexivity.
    replace (is_scheme_extra ":") with false by reflexivity.
    rewrite Ascii.eqb_refl. destruct (Z.eqb_spec i 0); [lia|].
    unfold len. simpl String.length. now rewrite Z.add_0_r.
  - simpl in Htok. apply andb_true_iff in Htok as [Hc Htok].
    cbn [String.append Gogiturl.getScheme_loop].
    rewrite len_cons.
    replace (i + (len tok + 1)) with ((i + 1) + len tok) by lia.
    pose proof (len_nonneg tok).
    destruct (is_letter c); [apply IH; [lia|assumption]|].
    simpl in Hc. rewrite Hc.
    destruct (Z.eqb_spec i 0); [lia|]. apply IH; [lia|assumption].
Qed.

Lemma getscheme_loop_token rawurl urllen tok tail i :
  0 < i -> scheme_tail tok = true ->
  Part000.getscheme_loop rawurl urllen i (tok ++ String ":" tail) =
  let i' := i + len tok in
  if (urllen >=? i' + 3) && (slice rawurl (i' + 1) (i' + 3) =? "//")%string
  then if urllen >=? i' + 4
       then (slice_to rawurl i', slice_from rawurl (i' + 4), None)
       else (slice_to rawurl i', "", None)
  else ("", "", Some (errors_New "no scheme")).
Proof.
  revert i. induction tok as [|c tok IH]; intros i Hi Htok.
  - cbn [String.append Part000.getscheme_loop].
    replace (is_letter ":") with false by reflexivity.
    replace (is_scheme_extra ":") with false by reflexivity.
    rewrite Ascii.eqb_refl. destruct (Z.gtb_spec i 0); [|lia].
    unfold len. simpl String.length. cbv zeta. now rewrite Z.add_0_r.
  - simpl in Htok. apply andb_true_iff in Htok as [Hc Htok].
    cbn [String.append Part000.getscheme_loop].
    rewrite len_cons. cbv zeta.
    replace (i + (len tok + 1)) with ((i + 1) + len tok) by lia.
    pose proof (len_nonneg tok).
    destruct (is_letter c); [apply IH; [lia|assumption]|].
    simpl in Hc. rewrite Hc.
    destruct (Z.eqb_spec i 0); [lia|]. apply IH; [lia|assumption].
Qed.

Lemma getScheme_token tok tail :
  scheme_token tok = true ->
  Gogiturl.getScheme (tok ++ String ":" tail) = (tok, tail, None).
Proof.
  destruct tok as [|c tok]; [discriminate|]. simpl scheme_token.
  intros H. apply andb_true_iff in H as [Hc Htok].
  unfold Gogiturl.getScheme.
  cbn [String.append Gogiturl.getScheme_loop]. rewrite Hc.
  change (0 + 1) with 1. rewrite getScheme_loop_token by (auto; lia).
  change (String c (tok ++ String ":" tail))
    with (String c tok ++ String ":" tail)%string.
  assert (H1 : slice_to (String c tok ++ String ":" tail) (1 + len tok)
               = String c tok).
  { replace (1 + len tok) with (len (String c tok)) by (rewrite len_cons; lia).
    apply slice_to_app. }
  assert (H2 : slice_from (String c tok ++ String ":" tail) (1 + len tok + 1)
               = tail).
  { replace (1 + len tok + 1) with (len (String c tok ++ ":"))
      by (rewrite len_app, len_cons; change (len ":") with 1; lia).
    change (String ":" tail) with (":" ++ tail)%string.
    rewrite <- append_assoc. apply slice_from_app. }
  now rewrite H1, H2.
Qed.

(** The remainder that [getscheme] returns starts one byte after the
    two slashes (line 110 slices at [i+4]). *)
Lemma getscheme_token tok rest :
  scheme_token tok = true ->
  Part000.getscheme (tok ++ "://" ++ rest) = (tok, slice_from rest 1, None).
Proof.
  destruct tok as [|c tok]; [discriminate|]. simpl scheme_token.
  intros H. apply andb_true_iff in H as [Hc Htok].
  unfold Part000.getscheme.
  set (raw := (String c tok ++ "://" ++ rest)%string).
  assert (Hraw : raw = ((String c tok ++ ":") ++ "//" ++ rest)%string).
  { unfold raw. now rewrite append_assoc. }
  assert (Hlen : len raw = len tok + 4 + len rest).
  { unfold raw. rewrite len_app, len_cons, len_app.
    change (len "://") with 3. lia. }
  assert (Hpre : len (String c tok ++ ":") = 1 + len tok + 1).
  { rewrite len_app, len_cons. change (len ":") with 1. lia. }
  unfold raw at 3.
  cbn [String.append Part000.getscheme_loop]. rewrite Hc.
  change (0 + 1) with 1.
  change (tok ++ String ":" (String "/" (String "/" rest)))%string
    with (tok ++ String ":" ("//" ++ rest))%string.
  rewrite getscheme_loop_token by (auto; lia). cbv zeta.
  pose proof (len_nonneg tok). pose proof (len_nonneg rest).
  assert (Hslash : slice raw (1 + len tok + 1) (1 + len tok + 3) = "//").
  { unfold slice.
    replace (1 + len tok + 3 - (1 + len tok + 1)) with 2 by lia.
    rewrite <- Hpre. fold (slice_from raw (len (String c tok ++ ":"))).
    rewrite Hraw, slice_from_app. reflexivity. }
  rewrite Hslash.
  destruct (Z.geb_spec (len raw) (1 + len tok + 3)); [|lia].
  cbn [andb String.eqb Ascii.eqb Bool.eqb].
  assert (Htok' : slice_to raw (1 + len tok) = String c tok).
  { replace (1 + len tok) with (len (String c tok))
      by (rewrite len_cons; lia).
    apply slice_to_app. }
  rewrite Htok'.
  destruct (Z.geb_spec (len raw) (1 + len tok + 4)) as [Hge|Hlt].
  - assert (Hrem : slice_from raw (1 + len tok + 4) = slice_from rest 1).
    { replace (1 + len tok + 4) with (len (String c tok ++ ":") + 3) by lia.
      unfold slice_from.
      replace (Z.to_nat (len (String c tok ++ ":") + 3))
        with (String.length (String c tok ++ ":") + 3)%nat
        by (unfold len; lia).
      rewrite Hraw. clear.
      generalize (String c tok ++ ":")%string as a. intros a.
      induction a as [|d a IH]; [now destruct rest|exact IH]. }
    now rewrite Hrem.
  - assert (Hrest : len rest = 0) by lia.
    clear - Hrest. destruct rest as [|d rest]; [reflexivity|].
    rewrite len_cons in Hrest. pose proof (len_nonneg rest). lia.
Qed.

(** ** Munging *)

Lemma Replace1_colon (post : string) :
  strings_Replace1 (String ":" post) ":" "/" = String "/" post.
Proof. unfold strings_Replace1. rewrite Index_byte_cons. reflexivity. Qed.

Lemma mungeGitURL_form rawurl mungedurl :
  Part000.mungeGitURL rawurl = (mungedurl, None) ->
  exists x, mungedurl = ("ssh://" ++ x)%string.
Proof.
  unfold Part000.mungeGitURL.
  match goal with
  | |- (if ?b then _ else _) = _ -> _ => destruct b; [discriminate|]
  end.
  intros H. apply (f_equal fst) in H. cbn [fst] in H. subst mungedurl.
  eexists. reflexivity.
Qed.

Lemma length_drop (n : nat) (s : string) :
  String.length (drop n s) = (String.length s - n)%nat.
Proof. revert s. induction n as [|n IH]; intros [|c s]; simpl; auto. Qed.

(** The slices of [mungeGitURL] are in range. *)
Lemma munge_index_in_range rawurl :
  let i := strings_Index rawurl "]" in
  let j := if i <? 0 then strings_Index rawurl ":"
           else strings_Index (slice_from rawurl i) ":" in
  0 <= j -> 0 <= (if i >=? 0 then j + i else j) <= len rawurl.
Proof.
  cbv zeta. pose proof (Index_byte_bounds "]" rawurl) as Hi.
  destruct (Z.ltb_spec (strings_Index rawurl "]") 0) as [Hlt|Hge].
  - destruct (Z.geb_spec (strings_Index rawurl "]") 0); [lia|].
    pose proof (Index_byte_bounds ":" rawurl). lia.
  - destruct (Z.geb_spec (strings_Index rawurl "]") 0); [|lia].
    intros Hj.
    pose proof (Index_byte_bounds ":"
                  (slice_from rawurl (strings_Index rawurl "]"))) as Hb.
    assert (len (slice_from rawurl (strings_Index rawurl "]"))
            = len rawurl - strings_Index rawurl "]"); [|lia].
    unfold slice_from, len in *. rewrite length_drop. lia.
Qed.

(** The munged string, once the delimiter colon [d] is known. *)
Lemma mungeGitURL_at rawurl d :
  first_colon_from rawurl (Z.max 0 (strings_Index rawurl "]")) d ->
  Part000.mungeGitURL rawurl =
  (("ssh://" ++ slice_to rawurl d ++ String "/" (slice_from rawurl (d + 1)))
     %string, None).
Proof.
  intros (Hid & Hat & Hbefore).
  pose proof (Index_byte_bounds "]" rawurl) as Hi.
  unfold Part000.mungeGitURL.
  destruct (Z.ltb_spec (strings_Index rawurl "]") 0) as [Hlt|Hge].
  - rewrite Z.max_l in * by lia.
    rewrite (Index_byte_first ":" rawurl d) by auto.
    destruct (Z.ltb_spec d 0); [lia|].
    destruct (Z.geb_spec (strings_Index rawurl "]") 0); [lia|].
    now rewrite (slice_from_byte rawurl d ":"), Replace1_colon by auto.
  - rewrite Z.max_r in * by lia.
    set (i := strings_Index rawurl "]") in *.
    rewrite (Index_byte_first ":" (slice_from rawurl i) (d - i)).
    + destruct (Z.ltb_spec (d - i) 0); [lia|].
      destruct (Z.geb_spec i 0); [|lia].
      replace (d - i + i) with d by lia.
      now rewrite (slice_from_byte rawurl d ":"), Replace1_colon by (auto; lia).
    + lia.
    + rewrite byte_at_slice_from by lia.
      now replace (i + (d - i)) with d by lia.
    + intros k Hk. rewrite byte_at_slice_from by lia. apply Hbefore. lia.
Qed.

Lemma length_take (n : nat) (s : string) :
  String.length (take n s) = Nat.min n (String.length s).
Proof. revert s. induction n as [|n IH]; intros [|c s]; simpl; auto. Qed.

(** Munging changes one byte: the bytes before the delimiter are kept
    and the delimiter becomes a slash. *)
Lemma munged_at_bytes rawurl d :
  0 <= d -> byte_at rawurl d = Some ":"%char ->
  byte_at (munged_at rawurl d) (6 + d) = Some "/"%char
  /\ forall k, 0 <= k < d ->
                byte_at (munged_at rawurl d) (6 + k) = byte_at rawurl k.
Proof.
  intros Hd Hat.
  assert (Hlt : d < len rawurl).
  { unfold byte_at in Hat. destruct (Z.ltb_spec d 0); [lia|].
    unfold len. destruct (Z.lt_ge_cases d (Z.of_nat (String.length rawurl)))
      as [H'|H']; [assumption|exfalso].
    assert (Hn : (String.length rawurl <= Z.to_nat d)%nat) by lia.
    revert Hat Hn. generalize (Z.to_nat d) as n. clear. intros n.
    revert n. induction rawurl as [|c s IH]; intros [|n] Hat Hn;
      simpl in *; try discriminate; try lia.
    apply (IH n Hat). lia. }
  assert (Hlen : len (slice_to rawurl d) = d).
  { unfold slice_to, len in *. rewrite length_take. lia. }
  unfold munged_at.
  change 6 with (len "ssh://"). split.
  - rewrite byte_at_app_right by lia.
    pose proof (byte_at_app_right
                  (slice_to rawurl d)
                  (String "/" (slice_from rawurl (d + 1))) 0) as H.
    rewrite Hlen, Z.add_0_r in H. now rewrite H by lia.
  - intros k Hk. rewrite byte_at_app_right by lia.
    rewrite byte_at_app_left by lia.
    assert (Hraw : (slice_to rawurl d ++ slice_from rawurl d)%string
                   = rawurl) by apply take_drop.
    rewrite <- Hraw at 2. symmetry. apply byte_at_app_left. lia.
Qed.

Lemma mungeGitURL_missing rawurl :
  0 <= strings_Index rawurl "]" ->
  strings_Index (slice_from rawurl (strings_Index rawurl "]")) ":" < 0 ->
  Part000.mungeGitURL rawurl = ("", Some Part000.ErrMissingDelimiter).
Proof.
  intros Hi Hj. unfold Part000.mungeGitURL.
  destruct (Z.ltb_spec (strings_Index rawurl "]") 0); [lia|].
  destruct (Z.ltb_spec
              (strings_Index (slice_from rawurl (strings_Index rawurl "]"))
                             ":") 0); [reflexivity|lia].
Qed.

(** ** How the two [Parse] functions run *)

Lemma getScheme_ssh (x : string) :
  Gogiturl.getScheme ("ssh://" ++ x) = ("ssh", ("//" ++ x)%string, None).
Proof. exact (getScheme_token "ssh" ("//" ++ x) eq_refl). Qed.

Lemma Index_colon_ssh (x : string) : strings_Index ("ssh://" ++ x) ":" = 3.
Proof. cbn [String.append]. rewrite !Index_byte_cons. reflexivity. Qed.

Section Runs.

Variable p : Parser.

(** The body of [parse], with lines 65-88 written as the [mungeGitURL]
    of the second file, which has the same text. *)
Lemma parse_unfold (rawurl origrawurl : string) :
  Gogiturl.parse p rawurl origrawurl =
  match p rawurl with
  | inl url =>
      mkRun (if negb (rawurl =? origrawurl)%string then strip_first url
             else Ok (mkGitURL url)) [rawurl]
  | inr err =>
      if strings_Index rawurl ":" <? 0 then mkRun (Err err) [rawurl]
      else
        let '(scheme, _, schemeerr) := Gogiturl.getScheme rawurl in
        if is_nil schemeerr || negb (scheme =? "")%string
        then mkRun (Err err) [rawurl]
        else
          match Part000.mungeGitURL rawurl with
          | (_, Some _) => mkRun (Err Gogiturl.ErrMissingDelimiter) [rawurl]
          | (mungedurl, None) =>
              let r := Gogiturl.parse p mungedurl origrawurl in
              mkRun (result r) (rawurl :: parsed r)
          end
  end.
Proof.
  funelim (Gogiturl.parse p rawurl origrawurl);
    repeat match goal with
           | H : p _ = _ |- _ => rewrite H
           | H : (strings_Index _ _ <? 0) = _ |- _ => rewrite H
           | H : Gogiturl.getScheme _ = _ |- _ => rewrite H
           | H : (_ || _)%bool = _ |- _ => rewrite H
           end; try reflexivity.
  unfold Part000.mungeGitURL. cbv zeta.
  match goal with
  | |- (if ?b then _ else _) = _ => destruct b; reflexivity
  end.
Qed.

(** The second round of [parse]: a munged string is parsed once and
    never munged again. *)
Lemma parse_munged (x origrawurl : string) :
  Gogiturl.parse p ("ssh://" ++ x) origrawurl =
  mkRun match p ("ssh://" ++ x)%string with
        | inl url =>
            if negb ("ssh://" ++ x =? origrawurl)%string
            then strip_first url else Ok (mkGitURL url)
        | inr err => Err err
        end
        [("ssh://" ++ x)%string].
Proof.
  rewrite parse_unfold. destruct (p _); [reflexivity|].
  now rewrite Index_colon_ssh, getScheme_ssh.
Qed.

Lemma Gogiturl_Parse_direct (rawurl : string) (u : URL) :
  p rawurl = inl u ->
  Gogiturl.Parse p rawurl = mkRun (Ok (mkGitURL u)) [rawurl].
Proof.
  intros H. unfold Gogiturl.Parse.
  now rewrite parse_unfold, H, String.eqb_refl.
Qed.

Lemma Gogiturl_Parse_no_colon (rawurl : string) (e : error) :
  p rawurl = inr e -> strings_Index rawurl ":" < 0 ->
  Gogiturl.Parse p rawurl = mkRun (Err e) [rawurl].
Proof.
  intros H Hno. unfold Gogiturl.Parse. rewrite parse_unfold, H.
  apply Z.ltb_lt in Hno. now rewrite Hno.
Qed.

Lemma Gogiturl_Parse_scheme (rawurl scheme path : string) (e : error) :
  p rawurl = inr e -> Gogiturl.getScheme rawurl = (scheme, path, None) ->
  Gogiturl.Parse p rawurl = mkRun (Err e) [rawurl].
Proof.
  intros H Hs. unfold Gogiturl.Parse. rewrite parse_unfold, H, Hs.
  now destruct (_ <? 0).
Qed.

Lemma Gogiturl_candidate_inv (rawurl : string) :
  Gogiturl.shorthand_candidate p rawurl = true ->
  exists e e' path,
    p rawurl = inr e /\ 0 <= strings_Index rawurl ":"
    /\ Gogiturl.getScheme rawurl = ("", path, Some e').
Proof.
  unfold Gogiturl.shorthand_candidate.
  destruct (p rawurl) as [|e]; [discriminate|].
  destruct (Gogiturl.getScheme rawurl) as [[scheme path] [e'|]] eqn:Hs;
    intros H; apply andb_true_iff in H as [Hcolon Hscheme];
    [|discriminate].
  exists e, e', path. repeat split.
  - destruct (Z.ltb_spec (strings_Index rawurl ":") 0);
      [discriminate|assumption].
  - unfold Gogiturl.getScheme in Hs.
    now rewrite (getScheme_loop_error_scheme _ _ _ _ _ _ Hs) in *.
Qed.

Lemma Gogiturl_Parse_candidate (rawurl : string) :
  Gogiturl.shorthand_candidate p rawurl = true ->
  Gogiturl.Parse p rawurl =
  match Part000.mungeGitURL rawurl with
  | (_, Some _) => mkRun (Err Gogiturl.ErrMissingDelimiter) [rawurl]
  | (mungedurl, None) =>
      mkRun match p mungedurl with
            | inl url => strip_first url
            | inr err => Err err
            end
            [rawurl; mungedurl]
  end.
Proof.
  intros H. apply Gogiturl_candidate_inv in H
    as (e & e' & path & Hp & Hcolon & Hs).
  unfold Gogiturl.Parse. rewrite parse_unfold, Hp, Hs.
  destruct (Z.ltb_spec (strings_Index rawurl ":") 0); [lia|].
  cbn [is_nil orb negb String.eqb].
  destruct (Part000.mungeGitURL rawurl) as [m [err|]] eqn:Hm;
    [reflexivity|].
  destruct (mungeGitURL_form _ _ Hm) as [x ->].
  rewrite parse_munged. cbn [result parsed].
  destruct (String.eqb_spec ("ssh://" ++ x) rawurl) as [<-|_];
    [|reflexivity].
  rewrite getScheme_ssh in Hs. discriminate.
Qed.

Lemma Part000_candidate_inv (rawurl : string) :
  Part000.shorthand_candidate rawurl = true ->
  (exists scheme rem e, Part000.getscheme rawurl = (scheme, rem, Some e))
  /\ 0 <= strings_Index rawurl ":".
Proof.
  unfold Part000.shorthand_candidate.
  destruct (Part000.getscheme rawurl) as [[scheme rem] [e|]] eqn:Hs;
    intros H; apply andb_true_iff in H as [H Hcolon];
    apply andb_true_iff in H as [_ H].
  - split; [eauto|].
    destruct (Z.ltb_spec (strings_Index rawurl ":") 0);
      [discriminate|assumption].
  - apply getscheme_scheme_nonempty in Hs.
    cbn in H. apply String.eqb_eq in H. contradiction.
Qed.

Lemma Part000_Parse_candidate (rawurl : string) :
  Part000.shorthand_candidate rawurl = true ->
  Part000.Parse p rawurl =
  match Part000.mungeGitURL rawurl with
  | (_, Some err) => mkRun (Err err) []
  | (mungedurl, None) => Part000.parse_and_revert p mungedurl true
  end.
Proof.
  intros H. apply Part000_candidate_inv in H
    as [(scheme & rem & e & Hs) Hcolon].
  unfold Part000.Parse. rewrite Hs. cbn [negb orb].
  destruct (Z.ltb_spec (strings_Index rawurl ":") 0); [lia|].
  reflexivity.
Qed.

Lemma Part000_Parse_no_colon (rawurl : string) :
  strings_Index rawurl ":" < 0 ->
  Part000.Parse p rawurl =
  Part000.parse_and_revert p ("file:///" ++ rawurl) true.
Proof.
  intros Hno. unfold Part000.Parse.
  pose proof (getscheme_loop_no_colon rawurl (len rawurl) 0 rawurl Hno)
    as Hs.
  fold (Part000.getscheme rawurl) in Hs.
  destruct (Part000.getscheme rawurl) as [[scheme rem] [e|]];
    [|now elim Hs].
  cbn [negb orb]. apply Z.ltb_lt in Hno. now rewrite Hno.
Qed.

Lemma Part000_Parse_direct (rawurl scheme rem : string) :
  Part000.getscheme rawurl = (scheme, rem, None) -> rem <> EmptyString ->
  Part000.Parse p rawurl = Part000.parse_and_revert p rawurl false.
Proof.
  intros Hs Hrem. unfold Part000.Parse. rewrite Hs.
  destruct rem as [|c rem]; [contradiction|].
  apply getscheme_scheme_nonempty in Hs.
  destruct (String.eqb_spec scheme ""); [contradiction|]. reflexivity.
Qed.

(** A shorthand candidate of [gogiturl.go] is one of the second file. *)
Lemma candidate_refines (rawurl : string) :
  Gogiturl.shorthand_candidate p rawurl = true ->
  Part000.shorthand_candidate rawurl = true.
Proof.
  intros H. apply Gogiturl_candidate_inv in H
    as (e & e' & path & Hp & Hcolon & Hs).
  unfold Part000.shorthand_candidate.
  destruct (Part000.getscheme rawurl) as [[scheme rem] [err|]] eqn:Hb.
  - cbn [negb orb andb].
    destruct (Z.ltb_spec (strings_Index rawurl ":") 0); [lia|reflexivity].
  - apply getscheme_refines in Hb as [path' Hb]. congruence.
Qed.

End Runs.

(** ** The reference parser reports the scheme *)

Lemma scheme_tail_app (a b : string) :
  scheme_tail (a ++ b) = scheme_tail a && scheme_tail b.
Proof.
  induction a as [|c a IH]; simpl; [reflexivity|].
  now rewrite IH, andb_assoc.
Qed.

Lemma scheme_token_snoc (pre : string) (c : ascii) :
  (pre = EmptyString /\ is_letter c = true)
  \/ (scheme_token pre = true /\ (is_letter c || is_scheme_extra c) = true) ->
  scheme_token (pre ++ String c EmptyString) = true.
Proof.
  intros [[-> Hc]|[Hpre Hc]].
  - simpl. now rewrite Hc.
  - destruct pre as [|a pre]; [discriminate|]. simpl in *.
    apply andb_true_iff in Hpre as [Ha Hpre].
    rewrite Ha, scheme_tail_app, Hpre. simpl. now rewrite Hc.
Qed.

(** A successful scan returns the token before the first colon and the
    text after it. *)
Lemma getScheme_loop_inv rest : forall pre scheme path,
  pre = EmptyString \/ scheme_token pre = true ->
  Gogiturl.getScheme_loop (pre ++ rest) (len pre) rest
  = (scheme, path, None) ->
  scheme_token scheme = true
  /\ (pre ++ rest)%string = (scheme ++ String ":" path)%string.
Proof.
  induction rest as [|c rest IH]; intros pre scheme path Hpre H.
  - discriminate.
  - assert (Hstep : (pre ++ String c rest)%string
                    = ((pre ++ String c EmptyString) ++ rest)%string)
      by now rewrite append_assoc.
    assert (Hlen : len pre + 1 = len (pre ++ String c EmptyString))
      by (rewrite len_app; reflexivity).
    assert (Hnz : len pre <> 0 -> scheme_token pre = true).
    { destruct Hpre as [->|Hp]; [intros Hn; now elim Hn | auto]. }
    cbn [Gogiturl.getScheme_loop] in H.
    destruct (is_letter c) eqn:Hl.
    + rewrite Hstep, Hlen in H. apply IH in H; [now rewrite Hstep|].
      right. apply scheme_token_snoc.
      destruct Hpre as [->|Hp]; [left|right]; rewrite ?Hl; auto.
    + destruct (is_scheme_extra c) eqn:He.
      * destruct (Z.eqb_spec (len pre) 0); [discriminate|].
        rewrite Hstep, Hlen in H. apply IH in H; [now rewrite Hstep|].
        right. apply scheme_token_snoc. right. rewrite He, orb_true_r. auto.
      * destruct (Ascii.eqb_spec c ":") as [->|]; [|discriminate].
        destruct (Z.eqb_spec (len pre) 0); [discriminate|].
        rewrite slice_to_app in H.
        replace (len pre + 1) with (len (pre ++ ":")) in H
          by (rewrite len_app; reflexivity).
        change (String ":" rest) with (":" ++ rest)%string in H.
        rewrite <- append_assoc, slice_from_app in H.
        injection H as <- <-. split; [auto|reflexivity].
Qed.

Lemma getScheme_inv (s scheme path : string) :
  Gogiturl.getScheme s = (scheme, path, None) ->
  scheme_token scheme = true /\ s = (scheme ++ String ":" path)%string.
Proof.
  intros H. apply (getScheme_loop_inv s EmptyString); [now left|exact H].
Qed.

Lemma NetURL_getScheme_loop_token rawURL tok tail i :
  0 < i -> scheme_tail tok = true ->
  NetURL.getScheme_loop rawURL i (tok ++ String ":" tail) =
  (slice_to rawURL (i + len tok), slice_from rawURL (i + len tok + 1), None).
Proof.
  revert i. induction tok as [|c tok IH]; intros i Hi Htok.
  - cbn [String.append NetURL.getScheme_loop].
    replace (is_letter ":") with false by reflexivity.
    replace (is_scheme_extra ":") with false by reflexivity.
    rewrite Ascii.eqb_refl. destruct (Z.eqb_spec i 0); [lia|].
    unfold len. simpl String.length. now rewrite Z.add_0_r.
  - simpl in Htok. apply andb_true_iff in Htok as [Hc Htok].
    cbn [String.append NetURL.getScheme_loop].
    rewrite len_cons.
    replace (i + (len tok + 1)) with ((i + 1) + len tok) by lia.
    pose proof (len_nonneg tok).
    destruct (is_letter c); [apply IH; [lia|assumption]|].
    simpl in Hc. rewrite Hc.
    destruct (Z.eqb_spec i 0); [lia|]. apply IH; [lia|assumption].
Qed.

Lemma NetURL_getScheme_token tok tail :
  scheme_token tok = true ->
  NetURL.getScheme (tok ++ String ":" tail) = (tok, tail, None).
Proof.
  destruct tok as [|c tok]; [discriminate|]. simpl scheme_token.
  intros H. apply andb_true_iff in H as [Hc Htok].
  unfold NetURL.getScheme.
  cbn [String.append NetURL.getScheme_loop]. rewrite Hc.
  change (0 + 1) with 1. rewrite NetURL_getScheme_loop_token by (auto; lia).
  change (String c (tok ++ String ":" tail))
    with (String c tok ++ String ":" tail)%string.
  assert (H1 : slice_to (String c tok ++ String ":" tail) (1 + len tok)
               = String c tok).
  { replace (1 + len tok) with (len (String c tok)) by (rewrite len_cons; lia).
    apply slice_to_app. }
  assert (H2 : slice_from (String c tok ++ String ":" tail) (1 + len tok + 1)
               = tail).
  { replace (1 + len tok + 1) with (len (String c tok ++ ":"))
      by (rewrite len_app, len_cons; change (len ":") with 1; lia).
    change (String ":" tail) with (":" ++ tail)%string.
    rewrite <- append_assoc. apply slice_from_app. }
  now rewrite H1, H2.
Qed.

(** Cutting a fragment off leaves the scheme and its colon in place. *)
Lemma scheme_colon_before_hash tok : forall x pre post,
  scheme_tail tok = true ->
  (tok ++ String ":" x)%string = (pre ++ String "#" post)%string ->
  exists x', pre = (tok ++ String ":" x')%string.
Proof.
  induction tok as [|c tok IH]; intros x pre post Htok H.
  - destruct pre as [|d pre]; [discriminate|].
    injection H as <- _. now exists pre.
  - simpl in Htok. apply andb_true_iff in Htok as [Hc Htok].
    destruct pre as [|d pre].
    + injection H as -> _. discriminate.
    + injection H as <- H. apply IH in H as [x' ->]; [|assumption].
      now exists x'.
Qed.

Lemma Cut_hash_scheme tok x :
  scheme_token tok = true ->
  exists x', fst (fst (NetURL.Cut (tok ++ String ":" x) "#"))
             = (tok ++ String ":" x')%string.
Proof.
  intros Htok. unfold NetURL.Cut.
  destruct (Z.geb_spec (strings_Index (tok ++ String ":" x) "#") 0)
    as [Hge|Hlt]; [|cbn; eauto].
  destruct (Index_byte_found "#" _ _ eq_refl Hge)
    as (pre & post & Hsplit & Hlen & _).
  cbn [fst]. rewrite <- Hlen.
  assert (Hcut : slice_to (tok ++ String ":" x) (len pre) = pre)
    by (rewrite Hsplit; apply slice_to_app).
  rewrite Hcut.
  eapply scheme_colon_before_hash; [|exact Hsplit].
  destruct tok as [|c tok]; [discriminate|]. simpl in *.
  apply andb_true_iff in Htok as [Hc Htok]. now rewrite Hc, Htok.
Qed.

Ltac split_matches :=
  repeat match goal with
         | |- context [match ?e with _ => _ end] => destruct e
         end.

Lemma NetURL_parse_scheme tok x u :
  scheme_token tok = true ->
  NetURL.parse (tok ++ String ":" x) = inl u ->
  Scheme u = NetURL.ToLower tok.
Proof.
  intros Htok. unfold NetURL.parse.
  destruct (NetURL.stringContainsCTLByte _); [discriminate|].
  destruct (String.eqb_spec (tok ++ String ":" x) "*") as [E|_].
  - exfalso. apply (f_equal len) in E. rewrite len_app, len_cons in E.
    destruct tok as [|c tok]; [discriminate|]. rewrite len_cons in E.
    pose proof (len_nonneg tok). pose proof (len_nonneg x).
    change (len "*") with 1 in E. lia.
  - rewrite (NetURL_getScheme_token tok x Htok).
    split_matches; intros H; try discriminate; now injection H as <-.
Qed.

Lemma NetURL_reports_scheme : reports_scheme NetURL.Parse.
Proof.
  intros s scheme rest u Hs. apply getScheme_inv in Hs as [Htok ->].
  unfold NetURL.Parse.
  destruct (Cut_hash_scheme scheme rest Htok) as [x' Hcut].
  destruct (NetURL.Cut (scheme ++ String ":" rest) "#") as [[u0 frag] b].
  cbn [fst] in Hcut. subst u0.
  destruct (NetURL.parse _) as [url|e] eqn:Hp; [|discriminate].
  apply NetURL_parse_scheme in Hp; [|assumption].
  destruct (frag =? "")%string; [now intros [= <-]|].
  unfold NetURL.setFragment.
  destruct (NetURL.unescape frag NetURL.encodeFragment); [|discriminate].
  now intros [= <-].
Qed.

Lemma ToLower_nonempty (s : string) :
  s <> EmptyString -> NetURL.ToLower s <> EmptyString.
Proof. destruct s; [congruence|discriminate]. Qed.

(** ** Shared facts about the munging path *)

Lemma strip_first_Scheme (u : URL) (g : GitURL) :
  strip_first u = Ok g -> Scheme (url_URL g) = Scheme u.
Proof.
  unfold strip_first. destruct (Path u); [discriminate|].
  now intros [= <-].
Qed.

Lemma strip_first_Host (u : URL) (g : GitURL) :
  strip_first u = Ok g -> Host (url_URL g) = Host u.
Proof.
  unfold strip_first. destruct (Path u); [discriminate|].
  now intros [= <-].
Qed.

Lemma candidate_runs (p : Parser) (rawurl mungedurl : string) (u : URL)
      (c : ascii) (path : string) :
  Part000.mungeGitURL rawurl = (mungedurl, None) ->
  p mungedurl = inl u ->
  Path u = String c path ->
  (Gogiturl.shorthand_candidate p rawurl = true ->
   Gogiturl.Parse p rawurl =
   mkRun (Ok (mkGitURL (set_Path u path))) [rawurl; mungedurl])
  /\ (Part000.shorthand_candidate rawurl = true ->
      Part000.Parse p rawurl =
      mkRun (Ok (mkGitURL (set_Path u path))) [mungedurl]).
Proof.
  intros Hm Hp Hpath. split; intros Hc.
  - rewrite (Gogiturl_Parse_candidate p rawurl Hc), Hm, Hp.
    unfold strip_first. now rewrite Hpath.
  - rewrite (Part000_Parse_candidate p rawurl Hc), Hm.
    unfold Part000.parse_and_revert. rewrite Hp.
    unfold strip_first. now rewrite Hpath.
Qed.

(** A concrete shorthand address, parsed by any parser that rejects the
    address itself and accepts its munged form. *)
Lemma shorthand_parses_to (p : Parser) (rawurl mungedurl : string)
      (e : error) (u : URL) (c : ascii) (path : string) :
  (strings_Index rawurl ":" <? 0) = false ->
  snd (Gogiturl.getScheme rawurl) <> None ->
  Part000.mungeGitURL rawurl = (mungedurl, None) ->
  p rawurl = inr e ->
  p mungedurl = inl u ->
  Path u = String c path ->
  parses_to (Gogiturl.Parse p rawurl) (Scheme u) (Host u) path
  /\ parses_to (Part000.Parse p rawurl) (Scheme u) (Host u) path.
Proof.
  intros Hcolon Hscheme Hm Hraw Hp Hpath.
  assert (Ha : Gogiturl.shorthand_candidate p rawurl = true).
  { unfold Gogiturl.shorthand_candidate. rewrite Hraw, Hcolon.
    destruct (Gogiturl.getScheme rawurl) as [[scheme rest] [e'|]] eqn:Hs;
      [|now elim Hscheme].
    unfold Gogiturl.getScheme in Hs.
    now rewrite (getScheme_loop_error_scheme _ _ _ _ _ _ Hs). }
  pose proof (candidate_refines p rawurl Ha) as Hb.
  destruct (candidate_runs p rawurl mungedurl u c path Hm Hp Hpath)
    as [HA HB].
  split; eexists; (split; [rewrite ?HA, ?HB by assumption; reflexivity|]);
    repeat split.
Qed.

Lemma getscheme_no_slashes (tok path : string) :
  scheme_token tok = true -> String.prefix "//" path = false ->
  snd (Part000.getscheme (tok ++ String ":" path)) <> None.
Proof.
  intros Htok Hpre H.
  destruct (Part000.getscheme (tok ++ String ":" path))
    as [[scheme rem] err] eqn:Hs.
  cbn [snd] in H. subst err.
  destruct tok as [|c tok]; [discriminate|]. simpl in Htok.
  apply andb_true_iff in Htok as [Hc Htok].
  unfold Part000.getscheme in Hs.
  cbn [String.append Part000.getscheme_loop] in Hs. rewrite Hc in Hs.
  change (0 + 1) with 1 in Hs.
  rewrite getscheme_loop_token in Hs by (auto; lia). cbv zeta in Hs.
  assert (Hslice : slice (String c (tok ++ String ":" path))
                         (1 + len tok + 1) (1 + len tok + 3)
                   = take 2 path).
  { unfold slice.
    replace (1 + len tok + 3 - (1 + len tok + 1)) with 2 by lia.
    replace (1 + len tok + 1) with (len (String c tok ++ ":"))
      by (rewrite len_app, len_cons; change (len ":") with 1; lia).
    fold (slice_from (String c (tok ++ String ":" path))
                     (len (String c tok ++ ":"))).
    change (String c (tok ++ String ":" path))
      with (String c tok ++ (":" ++ path))%string.
    rewrite <- append_assoc, slice_from_app. reflexivity. }
  rewrite Hslice in Hs.
  assert (Hne : (take 2 path =? "//")%string = false).
  { destruct path as [|a [|b path]]; cbn in Hpre |- *.
    - reflexivity.
    - now destruct (a =? "/")%char.
    - destruct (ascii_dec "/" a) as [<-|Ha].
      + destruct (ascii_dec "/" b) as [<-|Hb];
          [destruct path; discriminate|].
        apply Ascii.eqb_neq in Hb. rewrite Ascii.eqb_sym in Hb.
        now rewrite Hb.
      + apply Ascii.eqb_neq in Ha. rewrite Ascii.eqb_sym in Ha.
        now rewrite Ha. }
  rewrite Hne, andb_false_r in Hs. discriminate.
Qed.

(** ** The addresses listed in the sources (lines 42-51 of [gogiturl.go]) *)

Ltac evaluate := vm_compute; reflexivity.
Ltac run_to := eexists; split; [evaluate | repeat split].

(** A host name that is made of scheme bytes is a scheme to [net/url]
    and to [getScheme]: [gogiturl.go] returns the direct parse, the second
    file, whose [getscheme] asks for [://], munges. *)
Example listed_absolute :
  parses_to (Gogiturl.Parse NetURL.Parse "host.xz:/path/to/repo.git/")
            "host.xz" "" "/path/to/repo.git/"
  /\ parses_to (Part000.Parse NetURL.Parse "host.xz:/path/to/repo.git/")
               "ssh" "host.xz" "/path/to/repo.git/".
Proof. split; run_to. Qed.

Example listed_home :
  parses_to (Gogiturl.Parse NetURL.Parse "host.xz:~user/path/to/repo.git/")
            "host.xz" "" ""
  /\ parses_to (Part000.Parse NetURL.Parse "host.xz:~user/path/to/repo.git/")
               "ssh" "host.xz" "~user/path/to/repo.git/".
Proof. split; run_to. Qed.

Example listed_relative :
  parses_to (Gogiturl.Parse NetURL.Parse "host.xz:path/to/repo.git")
            "host.xz" "" ""
  /\ parses_to (Part000.Parse NetURL.Parse "host.xz:path/to/repo.git")
               "ssh" "host.xz" "path/to/repo.git".
Proof. split; run_to. Qed.

Example listed_ipv6 :
  both_parse_to "[d:e:a:d::1]:/path/to/repo.git/" "ssh" "[d:e:a:d::1]"
                "/path/to/repo.git/".
Proof. split; run_to. Qed.

Example listed_user_ipv4 :
  both_parse_to "user@10.10.10.10:/path/to/repo.git/" "ssh" "10.10.10.10"
                "/path/to/repo.git/".
Proof. split; run_to. Qed.

Example listed_user_ipv6 :
  both_parse_to "user@[d:e:a:d::1]:/path/to/repo.git/" "ssh" "[d:e:a:d::1]"
                "/path/to/repo.git/".
Proof. split; run_to. Qed.

Example listed_user_home :
  both_parse_to "user@host.xz:~user/path/to/repo.git/" "ssh" "host.xz"
                "~user/path/to/repo.git/".
Proof. split; run_to. Qed.

(** ** Where the sources stop with a run-time panic *)

(** A munged address whose re-parse has an empty path: [url.Path[1:]]
    is out of range. *)
Lemma munged_empty_path_panics (p : Parser) (rawurl mungedurl : string)
      (u : URL) :
  Part000.mungeGitURL rawurl = (mungedurl, None) ->
  p mungedurl = inl u ->
  Path u = EmptyString ->
  (Gogiturl.shorthand_candidate p rawurl = true ->
   exists msg, result (Gogiturl.Parse p rawurl) = Panic msg)
  /\ (Part000.shorthand_candidate rawurl = true ->
      exists msg, result (Part000.Parse p rawurl) = Panic msg).
Proof.
  intros Hm Hp Hpath. split; intros Hc.
  - rewrite (Gogiturl_Parse_candidate p rawurl Hc), Hm, Hp.
    unfold strip_first. rewrite Hpath. cbn. eauto.
  - rewrite (Part000_Parse_candidate p rawurl Hc), Hm.
    unfold Part000.parse_and_revert. rewrite Hp.
    unfold strip_first. rewrite Hpath. cbn. eauto.
Qed.

Example fragment_before_colon_panics :
  (exists msg,
      result (Gogiturl.Parse NetURL.Parse "[::1]#:x") = Panic msg)
  /\ (exists msg, result (Part000.Parse NetURL.Parse "a#b:c") = Panic msg).
Proof. split; eexists; evaluate. Qed.

(** The second file dereferences the nil URL of a failed parse. *)
Lemma failed_parse_panics (p : Parser) (rawurl : string) (e : error)
      (munged : bool) :
  p rawurl = inr e ->
  exists msg, result (Part000.parse_and_revert p rawurl munged) = Panic msg.
Proof.
  intros Hp. unfold Part000.parse_and_revert. rewrite Hp. cbn. eauto.
Qed.

(** The second file reports a scheme alone when one byte follows
    [://]. *)
Lemma one_byte_remainder_is_scheme_only (p : Parser) (tok : string)
      (c : ascii) :
  scheme_token tok = true ->
  Part000.Parse p (tok ++ "://" ++ String c EmptyString)
  = mkRun (Err Part000.ErrSchemeOnly) [].
Proof.
  intros Htok. unfold Part000.Parse.
  now rewrite (getscheme_token tok (String c EmptyString) Htok).
Qed.

Lemma munged_scheme (p : Parser) (rawurl mungedurl : string) (u : URL) :
  reports_scheme p ->
  Part000.mungeGitURL rawurl = (mungedurl, None) ->
  p mungedurl = inl u -> Scheme u = "ssh".
Proof.
  intros Hrep Hm Hp. destruct (mungeGitURL_form _ _ Hm) as [x ->].
  exact (Hrep _ _ _ _ (getScheme_ssh x) Hp).
Qed.

Lemma file_scheme (p : Parser) (rawurl : string) (u : URL) :
  reports_scheme p ->
  p ("file:///" ++ rawurl)%string = inl u -> Scheme u = "file".
Proof.
  intros Hrep Hp.
  exact (Hrep _ _ _ _ (getScheme_token "file" ("///" ++ rawurl) eq_refl) Hp).
Qed.

(** ** Properties of [Parse] *)

(** C1, as the sources have it.  For every SCP-like shorthand input
    that is rewritten to an ssh URI and whose re-parse succeeds with a
    non-empty path, both revisions of [Parse] remove exactly the first
    byte of the path produced by the re-parse, whichever byte that is,
    and return every other component as the re-parse gave it. *)
Theorem shorthand_strips_first_byte
        (p : Parser) (rawurl mungedurl : string) (u : URL)
        (c : ascii) (path : string) :
  Part000.mungeGitURL rawurl = (mungedurl, None) ->
  p mungedurl = inl u ->
  Path u = String c path ->
  (Gogiturl.shorthand_candidate p rawurl = true ->
   Gogiturl.Parse p rawurl =
   mkRun (Ok (mkGitURL (set_Path u path))) [rawurl; mungedurl])
  /\ (Part000.shorthand_candidate rawurl = true ->
      Part000.Parse p rawurl =
      mkRun (Ok (mkGitURL (set_Path u path))) [mungedurl]).
Proof. apply candidate_runs. Qed.

Lemma shorthand_strips_first_byte_witness :
  both_parse_to "git@github.com:user/repo.git" "ssh" "github.com"
                "user/repo.git".
Proof.
  destruct (shorthand_strips_first_byte
              NetURL.Parse "git@github.com:user/repo.git"
              "ssh://git@github.com/user/repo.git"
              (mkURL "ssh" "" (Some (mkUserinfo "git" "" false)) "github.com"
                     "/user/repo.git" "" false false "" "" "")
              "/" "user/repo.git")
    as [HA HB]; [evaluate | evaluate | evaluate |].
  split; eexists.
  - rewrite HA by evaluate. repeat split.
  - rewrite HB by evaluate. repeat split.
Defined.

(** C1 fails as stated: the path of ["git@github.com:user/repo.git"] is
    returned without the leading slash of the re-parse. *)
Lemma github_shorthand_path_is_stripped :
  (exists u, NetURL.Parse "ssh://git@github.com/user/repo.git" = inl u
             /\ Path u = "/user/repo.git")
  /\ parses_to (Gogiturl.Parse NetURL.Parse "git@github.com:user/repo.git")
               "ssh" "github.com" "user/repo.git"
  /\ parses_to (Part000.Parse NetURL.Parse "git@github.com:user/repo.git")
               "ssh" "github.com" "user/repo.git"
  /\ "user/repo.git" <> "/user/repo.git".
Proof.
  split; [eexists; split; evaluate|].
  split; [run_to|]. split; [run_to|]. discriminate.
Qed.

(** The byte that is removed is the first byte of the re-parsed path,
    not always the slash that stands for the delimiter: in
    ["[::1]/a:b"] the delimiter is the colon at index 7, the re-parsed
    path is ["/a/b"], and the slash that goes is the one of the input. *)
Example stripped_byte_can_be_a_slash_of_the_input :
  Part000.mungeGitURL "[::1]/a:b" = ("ssh://[::1]/a/b", None)
  /\ both_parse_to "[::1]/a:b" "ssh" "[::1]" "a/b".
Proof. split; [evaluate|]. split; run_to. Qed.

(** C2, as the sources have it.  For every input that the generic
    parser accepts directly, [Parse] of [gogiturl.go] succeeds and returns
    exactly the parser's result; [Parse] of the second file does so when
    its [getscheme] finds a scheme followed by [://] and a non-empty
    remainder. *)
Theorem accepted_input_returned_unchanged
        (p : Parser) (rawurl : string) (u : URL) :
  p rawurl = inl u ->
  Gogiturl.Parse p rawurl = mkRun (Ok (mkGitURL u)) [rawurl]
  /\ (forall scheme rem,
         Part000.getscheme rawurl = (scheme, rem, None) ->
         rem <> EmptyString ->
         Part000.Parse p rawurl = mkRun (Ok (mkGitURL u)) [rawurl]).
Proof.
  intros Hp. split; [now apply Gogiturl_Parse_direct|].
  intros scheme rem Hs Hrem.
  rewrite (Part000_Parse_direct p rawurl scheme rem Hs Hrem).
  unfold Part000.parse_and_revert. now rewrite Hp.
Qed.

Lemma accepted_input_returned_unchanged_witness :
  parses_to (Gogiturl.Parse NetURL.Parse "https://example.com/repo.git")
            "https" "example.com" "/repo.git"
  /\ parses_to (Part000.Parse NetURL.Parse "https://example.com/repo.git")
               "https" "example.com" "/repo.git".
Proof.
  destruct (accepted_input_returned_unchanged
              NetURL.Parse "https://example.com/repo.git"
              (mkURL "https" "" None "example.com" "/repo.git" ""
                     false false "" "" ""))
    as [HA HB]; [evaluate|].
  split; eexists.
  - rewrite HA. repeat split.
  - rewrite (HB "https" "xample.com/repo.git");
      [repeat split | evaluate | discriminate].
Defined.

(** C2 fails as stated on the second file: the generic parser accepts
    ["a"] as it is, and [Parse] returns the parse of ["file:///a"]. *)
Lemma accepted_input_rewritten :
  exists u, NetURL.Parse "a" = inl u
            /\ result (Part000.Parse NetURL.Parse "a") <> Ok (mkGitURL u)
            /\ parsed (Part000.Parse NetURL.Parse "a") = ["file:///a"].
Proof.
  eexists. split; [evaluate|].
  split; [vm_compute; discriminate | evaluate].
Qed.

(** C3, as the sources have it.  For every input without a colon,
    [Parse] of [gogiturl.go] hands the input alone to the generic parser
    and returns its result, so it fails with the direct-parse error when
    there is one; [Parse] of the second file parses ["file:///"] followed by
    the input instead, and on success returns that URL with the first
    byte of its path removed. *)
Theorem no_colon_no_munging (p : Parser) (rawurl : string) :
  strings_Index rawurl ":" < 0 ->
  Gogiturl.Parse p rawurl =
  mkRun match p rawurl with
        | inl u => Ok (mkGitURL u)
        | inr e => Err e
        end [rawurl]
  /\ parsed (Part000.Parse p rawurl) = [("file:///" ++ rawurl)%string]
  /\ (forall u, p ("file:///" ++ rawurl)%string = inl u ->
                result (Part000.Parse p rawurl) = strip_first u).
Proof.
  intros Hno. split; [|split].
  - destruct (p rawurl) as [u|e] eqn:Hp.
    + now apply Gogiturl_Parse_direct.
    + now apply Gogiturl_Parse_no_colon.
  - rewrite (Part000_Parse_no_colon p rawurl Hno).
    unfold Part000.parse_and_revert. now destruct (p _).
  - intros u Hp. rewrite (Part000_Parse_no_colon p rawurl Hno).
    unfold Part000.parse_and_revert. now rewrite Hp.
Qed.

Lemma no_colon_no_munging_witness :
  Gogiturl.Parse NetURL.Parse "//[" =
  mkRun (Err (url_Error "parse" "//[" "missing ']' in host")) ["//["]
  /\ parses_to (Part000.Parse NetURL.Parse "//[") "file" "" "//[".
Proof.
  destruct (no_colon_no_munging NetURL.Parse "//[") as (HA & _ & HB);
    [evaluate|].
  split; [rewrite HA; evaluate|].
  eexists. split; [erewrite HB by evaluate; evaluate|]. repeat split.
Defined.

(** C3 fails as stated: ["a"] has no colon and both revisions succeed
    on it, the second one after rewriting it to ["file:///a"]. *)
Lemma no_colon_input_succeeds :
  strings_Index "a" ":" < 0
  /\ parses_to (Gogiturl.Parse NetURL.Parse "a") "" "" "a"
  /\ parses_to (Part000.Parse NetURL.Parse "a") "file" "" "a"
  /\ parsed (Part000.Parse NetURL.Parse "a") = ["file:///a"].
Proof.
  split; [evaluate|].
  split; [run_to|]. split; [run_to|evaluate].
Qed.

(** C4, as the sources have it.  For every input that consists of a
    scheme token followed by [://] and nothing else, [Parse] of the second
    file fails with [ErrSchemeOnly] without calling the generic parser;
    [gogiturl.go] has no such check and returns what the generic parser
    returns for the input. *)
Theorem scheme_only_input (p : Parser) (tok : string) :
  scheme_token tok = true ->
  Part000.Parse p (tok ++ "://") = mkRun (Err Part000.ErrSchemeOnly) []
  /\ Gogiturl.Parse p (tok ++ "://") =
     mkRun match p (tok ++ "://")%string with
           | inl u => Ok (mkGitURL u)
           | inr e => Err e
           end [(tok ++ "://")%string].
Proof.
  intros Htok. split.
  - unfold Part000.Parse.
    pose proof (getscheme_token tok "" Htok) as Hs. cbn in Hs.
    now rewrite Hs.
  - destruct (p (tok ++ "://")%string) as [u|e] eqn:Hp.
    + now apply Gogiturl_Parse_direct.
    + eapply Gogiturl_Parse_scheme; [exact Hp|].
      apply (getScheme_token tok "//" Htok).
Qed.

Lemma scheme_only_input_witness :
  Part000.Parse NetURL.Parse "ssh://" = mkRun (Err Part000.ErrSchemeOnly) []
  /\ parses_to (Gogiturl.Parse NetURL.Parse "ssh://") "ssh" "" "".
Proof.
  destruct (scheme_only_input NetURL.Parse "ssh" eq_refl) as [HB HA].
  change ("ssh" ++ "://")%string with "ssh://" in HA, HB.
  split; [exact HB|].
  eexists. split; [rewrite HA; evaluate|]. repeat split.
Defined.

(** C4 fails as stated on [gogiturl.go]: ["ssh://"] is accepted. *)
Lemma scheme_only_accepted :
  parses_to (Gogiturl.Parse NetURL.Parse "ssh://") "ssh" "" ""
  /\ result (Gogiturl.Parse NetURL.Parse "ssh://")
     <> Err Part000.ErrSchemeOnly.
Proof.
  split; [run_to|]. vm_compute. discriminate.
Qed.

Lemma token_without_slashes_is_candidate (rawurl tok path : string) :
  Gogiturl.getScheme rawurl = (tok, path, None) ->
  String.prefix "//" path = false ->
  Part000.shorthand_candidate rawurl = true.
Proof.
  intros Hs Hpre.
  assert (Hcolon : 0 <= strings_Index rawurl ":").
  { apply (getScheme_loop_colon rawurl 0 rawurl).
    unfold Gogiturl.getScheme in Hs. now rewrite Hs. }
  pose proof (getScheme_inv _ _ _ Hs) as [Htok Hraw].
  pose proof (getscheme_no_slashes tok path Htok Hpre) as Hb.
  rewrite <- Hraw in Hb.
  unfold Part000.shorthand_candidate.
  destruct (Part000.getscheme rawurl) as [[s r] [e|]]; [|now elim Hb].
  cbn [negb orb andb].
  destruct (Z.ltb_spec (strings_Index rawurl ":") 0); [lia|reflexivity].
Qed.

(** C5, as the sources have it.  Let the generic parser report the
    scheme it is given.  On every input on which [Parse] of [gogiturl.go]
    succeeds: after a rewrite to an ssh URI the returned scheme is
    ["ssh"]; for an input that carries a scheme token it is that token in
    lower case, which is not empty; and for an input that the parser
    accepts directly it is the scheme the parser gave, token or not.  On
    every input on which [Parse] of the second file succeeds the returned
    scheme is not empty: it is ["ssh"] after a rewrite to an ssh URI,
    which that file also applies to an input whose token is not followed
    by two slashes; ["file"] after the rewrite of a colon-less input; and
    the token in lower case when [getscheme] finds it followed by
    [://]. *)
Theorem scheme_of_result (p : Parser) (rawurl : string) (g : GitURL) :
  reports_scheme p ->
  (result (Gogiturl.Parse p rawurl) = Ok g ->
   (Gogiturl.shorthand_candidate p rawurl = true ->
    Scheme (url_URL g) = "ssh")
   /\ (forall tok path,
          Gogiturl.getScheme rawurl = (tok, path, None) ->
          Scheme (url_URL g) = NetURL.ToLower tok
          /\ Scheme (url_URL g) <> EmptyString)
   /\ (forall u, p rawurl = inl u -> Scheme (url_URL g) = Scheme u))
  /\ (result (Part000.Parse p rawurl) = Ok g ->
      Scheme (url_URL g) <> EmptyString
      /\ (Part000.shorthand_candidate rawurl = true ->
          Scheme (url_URL g) = "ssh")
      /\ (strings_Index rawurl ":" < 0 -> Scheme (url_URL g) = "file")
      /\ (forall tok rem,
             Part000.getscheme rawurl = (tok, rem, None) ->
             Scheme (url_URL g) = NetURL.ToLower tok)
      /\ (forall tok path,
             Gogiturl.getScheme rawurl = (tok, path, None) ->
             String.prefix "//" path = false ->
             Scheme (url_URL g) = "ssh")).
Proof.
  intros Hrep. split; intros Hok.
  - split; [|split].
    + intros Hc. rewrite (Gogiturl_Parse_candidate p rawurl Hc) in Hok.
      destruct (Part000.mungeGitURL rawurl) as [m [err|]] eqn:Hm;
        cbn [result] in Hok; [discriminate|].
      destruct (p m) as [u|e] eqn:Hp; [|discriminate].
      rewrite (strip_first_Scheme _ _ Hok).
      exact (munged_scheme p rawurl m u Hrep Hm Hp).
    + intros tok path Hs. destruct (p rawurl) as [u|e] eqn:Hp.
      * rewrite (Gogiturl_Parse_direct p rawurl u Hp) in Hok.
        cbn [result] in Hok. injection Hok as <-. cbn [url_URL].
        rewrite (Hrep rawurl tok path u Hs Hp). split; [reflexivity|].
        apply ToLower_nonempty. apply getScheme_inv in Hs as [Htok _].
        now destruct tok.
      * rewrite (Gogiturl_Parse_scheme p rawurl tok path e Hp Hs) in Hok.
        discriminate.
    + intros u Hp. rewrite (Gogiturl_Parse_direct p rawurl u Hp) in Hok.
      cbn [result] in Hok. now injection Hok as <-.
  - cut (Scheme (url_URL g) <> EmptyString
         /\ (Part000.shorthand_candidate rawurl = true ->
             Scheme (url_URL g) = "ssh")
         /\ (strings_Index rawurl ":" < 0 -> Scheme (url_URL g) = "file")
         /\ (forall tok rem,
                Part000.getscheme rawurl = (tok, rem, None) ->
                Scheme (url_URL g) = NetURL.ToLower tok)).
    { intros (H1 & H2 & H3 & H4). repeat (split; [assumption|]).
      intros tok path Hs Hpre. apply H2.
      exact (token_without_slashes_is_candidate rawurl tok path Hs Hpre). }
    destruct (Part000.getscheme rawurl) as [[sch rem] [e|]] eqn:Hs.
    + destruct (Z.ltb_spec (strings_Index rawurl ":") 0) as [Hno|Hcolon].
      * rewrite (Part000_Parse_no_colon p rawurl Hno) in Hok.
        unfold Part000.parse_and_revert in Hok.
        destruct (p _) as [u|e'] eqn:Hp; cbn [result] in Hok;
          [|discriminate].
        rewrite (strip_first_Scheme _ _ Hok),
          (file_scheme p rawurl u Hrep Hp).
        split; [discriminate|]. split; [|split; [reflexivity|discriminate]].
        intros Hc. apply Part000_candidate_inv in Hc as [_ Hc]. lia.
      * assert (Hc : Part000.shorthand_candidate rawurl = true).
        { unfold Part000.shorthand_candidate. rewrite Hs. cbn [negb orb andb].
          destruct (Z.ltb_spec (strings_Index rawurl ":") 0);
            [lia|reflexivity]. }
        rewrite (Part000_Parse_candidate p rawurl Hc) in Hok.
        destruct (Part000.mungeGitURL rawurl) as [m [err|]] eqn:Hm;
          cbn [result] in Hok; [discriminate|].
        unfold Part000.parse_and_revert in Hok.
        destruct (p m) as [u|e'] eqn:Hp; cbn [result] in Hok;
          [|discriminate].
        rewrite (strip_first_Scheme _ _ Hok),
          (munged_scheme p rawurl m u Hrep Hm Hp).
        split; [discriminate|]. split; [reflexivity|].
        split; [lia|discriminate].
    + destruct rem as [|c rem].
      * unfold Part000.Parse in Hok. rewrite Hs in Hok. discriminate.
      * rewrite (Part000_Parse_direct p rawurl sch (String c rem) Hs) in Hok
          by discriminate.
        unfold Part000.parse_and_revert in Hok.
        destruct (p rawurl) as [u|e'] eqn:Hp; cbn [result] in Hok;
          [|discriminate].
        injection Hok as <-. cbn [url_URL].
        destruct (getscheme_refines _ _ _ Hs) as [path Ha].
        rewrite (Hrep rawurl sch path u Ha Hp).
        split; [|split; [|split]].
        -- apply ToLower_nonempty. eapply getscheme_scheme_nonempty; eauto.
        -- intros Hc.
           apply Part000_candidate_inv in Hc as [(s' & r' & e' & Hc) _].
           congruence.
        -- intros Hno.
           pose proof (getscheme_loop_no_colon rawurl (len rawurl) 0 rawurl
                                               Hno) as Hn.
           fold (Part000.getscheme rawurl) in Hn. rewrite Hs in Hn.
           now elim Hn.
        -- intros tok rem' Htok. now injection Htok as <- _.
Qed.

Lemma scheme_of_result_witness :
  (exists g,
      result (Gogiturl.Parse NetURL.Parse "git@github.com:user/repo.git")
      = Ok g
      /\ Scheme (url_URL g) = "ssh")
  /\ (exists g,
         result (Part000.Parse NetURL.Parse "host.xz:path/to/repo.git")
         = Ok g
         /\ Scheme (url_URL g) = "ssh").
Proof.
  split.
  - eexists. split; [evaluate|].
    destruct (scheme_of_result
                NetURL.Parse "git@github.com:user/repo.git"
                (mkGitURL (mkURL "ssh" "" (Some (mkUserinfo "git" "" false))
                                 "github.com" "user/repo.git" "" false false
                                 "" "" ""))
                NetURL_reports_scheme) as [HA _].
    destruct HA as [HA _]; [evaluate|]. apply HA. evaluate.
  - eexists. split; [evaluate|].
    destruct (scheme_of_result
                NetURL.Parse "host.xz:path/to/repo.git"
                (mkGitURL (mkURL "ssh" "" None "host.xz" "path/to/repo.git"
                                 "" false false "" "" ""))
                NetURL_reports_scheme) as [_ HB].
    destruct HB as (_ & _ & _ & _ & HB); [evaluate|].
    apply (HB "host.xz" "path/to/repo.git"); evaluate.
Defined.

(** C5 fails as stated: [gogiturl.go] returns ["a"] with an empty
    scheme, and the second file rewrites it and returns the scheme
    ["file"]. *)
Lemma scheme_can_be_empty :
  parses_to (Gogiturl.Parse NetURL.Parse "a") "" "" "a"
  /\ parses_to (Part000.Parse NetURL.Parse "a") "file" "" "a"
  /\ parsed (Part000.Parse NetURL.Parse "a") = ["file:///a"].
Proof. split; [run_to|]. split; [run_to|evaluate]. Qed.

(** C6.  For every shorthand input that contains a closing bracket,
    the colon that is rewritten is the first colon at or after the index
    of the first closing bracket: the string handed to the generic parser
    is the input with that colon turned into a slash, and every byte
    before it, so every colon inside the brackets, is kept.  In particular
    ["[::1]:/repo.git"] is re-parsed as ["ssh://[::1]//repo.git"] and
    returned with the host the generic parser reports for it and the path
    ["/repo.git"]. *)
Theorem bracketed_host_delimiter (p : Parser) (rawurl : string) (d : Z) :
  0 <= strings_Index rawurl "]" ->
  first_colon_from rawurl (strings_Index rawurl "]") d ->
  Part000.mungeGitURL rawurl = (munged_at rawurl d, None)
  /\ byte_at (munged_at rawurl d) (6 + d) = Some "/"%char
  /\ (forall k, 0 <= k < d ->
                byte_at (munged_at rawurl d) (6 + k) = byte_at rawurl k)
  /\ (Gogiturl.shorthand_candidate p rawurl = true ->
      parsed (Gogiturl.Parse p rawurl) = [rawurl; munged_at rawurl d])
  /\ (Part000.shorthand_candidate rawurl = true ->
      parsed (Part000.Parse p rawurl) = [munged_at rawurl d])
  /\ (forall e u,
         p "[::1]:/repo.git" = inr e ->
         p "ssh://[::1]//repo.git" = inl u ->
         Path u = "//repo.git" ->
         parses_to (Gogiturl.Parse p "[::1]:/repo.git")
                   (Scheme u) (Host u) "/repo.git"
         /\ parses_to (Part000.Parse p "[::1]:/repo.git")
                      (Scheme u) (Host u) "/repo.git").
Proof.
  intros Hi Hd.
  assert (Hm : Part000.mungeGitURL rawurl = (munged_at rawurl d, None)).
  { apply mungeGitURL_at. now rewrite Z.max_r by lia. }
  split; [exact Hm|].
  destruct (munged_at_bytes rawurl d) as [Hslash Hkept];
    [destruct Hd; lia | now destruct Hd as (_ & Hat & _) |].
  split; [exact Hslash|]. split; [exact Hkept|]. split; [|split].
  - intros Hc. now rewrite (Gogiturl_Parse_candidate p rawurl Hc), Hm.
  - intros Hc. rewrite (Part000_Parse_candidate p rawurl Hc), Hm.
    unfold Part000.parse_and_revert. now destruct (p _).
  - intros e u He Hu Hpath.
    apply (shorthand_parses_to p "[::1]:/repo.git" "ssh://[::1]//repo.git"
                               e u "/" "/repo.git");
      try assumption; try evaluate.
    vm_compute. discriminate.
Qed.

Lemma bracketed_host_delimiter_witness :
  first_colon_from "[::1]:/repo.git" 4 5
  /\ parsed (Gogiturl.Parse NetURL.Parse "[::1]:/repo.git")
     = ["[::1]:/repo.git"; "ssh://[::1]//repo.git"]
  /\ parsed (Part000.Parse NetURL.Parse "[::1]:/repo.git")
     = ["ssh://[::1]//repo.git"]
  /\ parses_to (Gogiturl.Parse NetURL.Parse "[::1]:/repo.git")
               "ssh" "[::1]" "/repo.git"
  /\ parses_to (Part000.Parse NetURL.Parse "[::1]:/repo.git")
               "ssh" "[::1]" "/repo.git".
Proof.
  assert (Hd : first_colon_from "[::1]:/repo.git" 4 5).
  { split; [lia|]. split; [reflexivity|].
    intros k Hk. assert (k = 4) as -> by lia. discriminate. }
  split; [exact Hd|].
  destruct (bracketed_host_delimiter NetURL.Parse "[::1]:/repo.git" 5)
    as (_ & _ & _ & HA & HB & Hex); [vm_compute; discriminate | exact Hd |].
  split; [now rewrite HA by evaluate|].
  split; [now rewrite HB by evaluate|].
  apply (Hex (url_Error "parse" "[::1]:/repo.git"
                        "first path segment in URL cannot contain colon")
             (mkURL "ssh" "" None "[::1]" "//repo.git" "" false false
                    "" "" "")); evaluate.
Defined.

(** C7, as the sources have it.  For every input whose scheme-token
    scan reaches a colon preceded by a non-empty scheme token: when the
    direct parse fails, [Parse] of [gogiturl.go] returns the original
    parse error and hands nothing else to the generic parser; [Parse] of
    the second file counts the token as a scheme only when [//] follows
    the colon, and otherwise treats the input as shorthand and parses the
    munged string. *)
Theorem scheme_token_input (p : Parser) (rawurl tok path : string) :
  Gogiturl.getScheme rawurl = (tok, path, None) ->
  (forall e, p rawurl = inr e ->
             Gogiturl.Parse p rawurl = mkRun (Err e) [rawurl])
  /\ (String.prefix "//" path = false ->
      Part000.shorthand_candidate rawurl = true
      /\ forall m, Part000.mungeGitURL rawurl = (m, None) ->
                   parsed (Part000.Parse p rawurl) = [m]).
Proof.
  intros Hs. split.
  - intros e Hp. exact (Gogiturl_Parse_scheme p rawurl tok path e Hp Hs).
  - intros Hpre.
    assert (Hcolon : 0 <= strings_Index rawurl ":").
    { apply (getScheme_loop_colon rawurl 0 rawurl).
      unfold Gogiturl.getScheme in Hs. now rewrite Hs. }
    pose proof (getScheme_inv _ _ _ Hs) as [Htok Hraw].
    pose proof (getscheme_no_slashes tok path Htok Hpre) as Hb.
    rewrite <- Hraw in Hb.
    assert (Hc : Part000.shorthand_candidate rawurl = true).
    { unfold Part000.shorthand_candidate.
      destruct (Part000.getscheme rawurl) as [[s r] [e|]];
        [|now elim Hb].
      cbn [negb orb andb].
      destruct (Z.ltb_spec (strings_Index rawurl ":") 0);
        [lia|reflexivity]. }
    split; [exact Hc|]. intros m Hm.
    rewrite (Part000_Parse_candidate p rawurl Hc), Hm.
    unfold Part000.parse_and_revert. now destruct (p m).
Qed.

Lemma scheme_token_input_witness :
  (exists e, NetURL.Parse "a:/%" = inr e
             /\ Gogiturl.Parse NetURL.Parse "a:/%" = mkRun (Err e) ["a:/%"])
  /\ parsed (Part000.Parse NetURL.Parse "a:/%") = ["ssh://a//%"].
Proof.
  destruct (scheme_token_input NetURL.Parse "a:/%" "a" "/%")
    as [HA HB]; [evaluate|].
  split.
  - eexists. split; [evaluate|]. apply HA. evaluate.
  - destruct HB as [_ HB]; [evaluate|]. apply HB. evaluate.
Defined.

(** C7 fails as stated on the second file: the direct parse of
    ["a:/%"] fails and the input has the scheme token ["a"], yet the
    munged string is parsed and the parse error is not returned. *)
Lemma bare_colon_scheme_is_munged :
  Gogiturl.getScheme "a:/%" = ("a", "/%", None)
  /\ (exists e, NetURL.Parse "a:/%" = inr e
                /\ result (Part000.Parse NetURL.Parse "a:/%") <> Err e)
  /\ parsed (Part000.Parse NetURL.Parse "a:/%") = ["ssh://a//%"].
Proof.
  split; [evaluate|]. split; [|evaluate].
  eexists. split; [evaluate|]. vm_compute. discriminate.
Qed.

(** C8.  For every shorthand candidate, an input that contains a colon
    and in which the scheme-token scan finds no scheme, such that a
    closing bracket is present and no colon follows it, [Parse] fails with
    the missing delimiter error: [gogiturl.go] once its direct attempt has
    failed, which is where it decides on candidates, the second file
    without calling the generic parser at all. *)
Theorem missing_delimiter (p : Parser) (rawurl : string) :
  0 <= strings_Index rawurl ":" ->
  snd (Gogiturl.getScheme rawurl) <> None ->
  0 <= strings_Index rawurl "]" ->
  strings_Index (slice_from rawurl (strings_Index rawurl "]")) ":" < 0 ->
  (forall e, p rawurl = inr e ->
             Gogiturl.Parse p rawurl =
             mkRun (Err Gogiturl.ErrMissingDelimiter) [rawurl])
  /\ Part000.Parse p rawurl = mkRun (Err Part000.ErrMissingDelimiter) [].
Proof.
  intros Hcolon Hscheme Hi Hj.
  pose proof (mungeGitURL_missing rawurl Hi Hj) as Hm.
  assert (Ha : forall e, p rawurl = inr e ->
                         Gogiturl.shorthand_candidate p rawurl = true).
  { intros e Hp. unfold Gogiturl.shorthand_candidate. rewrite Hp.
    destruct (Z.ltb_spec (strings_Index rawurl ":") 0); [lia|].
    destruct (Gogiturl.getScheme rawurl) as [[scheme rest] [e'|]] eqn:Hs;
      [|now elim Hscheme].
    unfold Gogiturl.getScheme in Hs.
    now rewrite (getScheme_loop_error_scheme _ _ _ _ _ _ Hs). }
  assert (Hb : Part000.shorthand_candidate rawurl = true).
  { unfold Part000.shorthand_candidate.
    destruct (Part000.getscheme rawurl) as [[scheme rem] [e|]] eqn:Hs.
    - cbn [negb orb andb].
      destruct (Z.ltb_spec (strings_Index rawurl ":") 0);
        [lia|reflexivity].
    - apply getscheme_refines in Hs as [path Hs]. rewrite Hs in Hscheme.
      now elim Hscheme. }
  split.
  - intros e Hp.
    now rewrite (Gogiturl_Parse_candidate p rawurl (Ha e Hp)), Hm.
  - now rewrite (Part000_Parse_candidate p rawurl Hb), Hm.
Qed.

Lemma missing_delimiter_witness :
  (exists e, NetURL.Parse "[::1]" = inr e)
  /\ Gogiturl.Parse NetURL.Parse "[::1]" =
     mkRun (Err Gogiturl.ErrMissingDelimiter) ["[::1]"]
  /\ Part000.Parse NetURL.Parse "[::1]" =
     mkRun (Err Part000.ErrMissingDelimiter) [].
Proof.
  destruct (missing_delimiter NetURL.Parse "[::1]") as [HA HB];
    [vm_compute; discriminate | vm_compute; discriminate
     | vm_compute; discriminate | evaluate |].
  split; [eexists; evaluate|].
  split; [|exact HB]. eapply HA. evaluate.
Defined.

(** C9.  Parsing ["10.10.10.10:/path/to/repo.git/"] succeeds with scheme
    ["ssh"], host ["10.10.10.10"] and path ["/path/to/repo.git/"], for any
    generic parser that rejects the address as it stands and reads the
    munged address ["ssh://10.10.10.10//path/to/repo.git/"] component by
    component. *)
Theorem ipv4_shorthand_address (p : Parser) (e : error) (u : URL) :
  p "10.10.10.10:/path/to/repo.git/" = inr e ->
  p "ssh://10.10.10.10//path/to/repo.git/" = inl u ->
  Scheme u = "ssh" ->
  Host u = "10.10.10.10" ->
  Path u = "//path/to/repo.git/" ->
  parses_to (Gogiturl.Parse p "10.10.10.10:/path/to/repo.git/")
            "ssh" "10.10.10.10" "/path/to/repo.git/"
  /\ parses_to (Part000.Parse p "10.10.10.10:/path/to/repo.git/")
               "ssh" "10.10.10.10" "/path/to/repo.git/".
Proof.
  intros He Hu Hscheme Hhost Hpath. rewrite <- Hscheme, <- Hhost.
  apply (shorthand_parses_to p "10.10.10.10:/path/to/repo.git/"
                             "ssh://10.10.10.10//path/to/repo.git/"
                             e u "/" "/path/to/repo.git/");
    try assumption; try evaluate.
  vm_compute. discriminate.
Qed.

Lemma ipv4_shorthand_address_witness :
  parses_to (Gogiturl.Parse NetURL.Parse "10.10.10.10:/path/to/repo.git/")
            "ssh" "10.10.10.10" "/path/to/repo.git/"
  /\ parses_to (Part000.Parse NetURL.Parse "10.10.10.10:/path/to/repo.git/")
               "ssh" "10.10.10.10" "/path/to/repo.git/".
Proof.
  apply (ipv4_shorthand_address
           NetURL.Parse
           (url_Error "parse" "10.10.10.10:/path/to/repo.git/"
                      "first path segment in URL cannot contain colon")
           (mkURL "ssh" "" None "10.10.10.10" "//path/to/repo.git/" ""
                  false false "" "" "")); evaluate.
Defined.

(** C10, as the sources have it.  The two revisions succeed on the same
    inputs with equal URLs on every shorthand candidate of [gogiturl.go],
    and on every input that the generic parser accepts and in which the
    second file's [getscheme] finds a scheme followed by [://] and a
    non-empty remainder. *)
Theorem revisions_agree (p : Parser) (rawurl : string) :
  (Gogiturl.shorthand_candidate p rawurl = true ->
   forall g, result (Gogiturl.Parse p rawurl) = Ok g
             <-> result (Part000.Parse p rawurl) = Ok g)
  /\ (forall u scheme rem,
         p rawurl = inl u ->
         Part000.getscheme rawurl = (scheme, rem, None) ->
         rem <> EmptyString ->
         result (Gogiturl.Parse p rawurl) = Ok (mkGitURL u)
         /\ result (Part000.Parse p rawurl) = Ok (mkGitURL u)).
Proof.
  split.
  - intros Hc g.
    rewrite (Gogiturl_Parse_candidate p rawurl Hc),
      (Part000_Parse_candidate p rawurl (candidate_refines p rawurl Hc)).
    destruct (Part000.mungeGitURL rawurl) as [m [err|]];
      cbn [result]; [split; discriminate|].
    unfold Part000.parse_and_revert.
    destruct (p m); cbn [result]; [reflexivity | split; discriminate].
  - intros u scheme rem Hp Hs Hrem.
    rewrite (Gogiturl_Parse_direct p rawurl u Hp),
      (Part000_Parse_direct p rawurl scheme rem Hs Hrem).
    unfold Part000.parse_and_revert. rewrite Hp. now split.
Qed.

Lemma revisions_agree_witness :
  (result (Gogiturl.Parse NetURL.Parse "git@github.com:user/repo.git")
   = result (Part000.Parse NetURL.Parse "git@github.com:user/repo.git"))
  /\ (result (Gogiturl.Parse NetURL.Parse "https://example.com/repo.git")
      = result (Part000.Parse NetURL.Parse "https://example.com/repo.git")).
Proof.
  split.
  - destruct (revisions_agree NetURL.Parse "git@github.com:user/repo.git")
      as [H _].
    assert (Ha : exists g,
               result (Gogiturl.Parse NetURL.Parse
                                      "git@github.com:user/repo.git") = Ok g)
      by (eexists; evaluate).
    destruct Ha as [g Ha]. rewrite Ha. symmetry.
    apply (H ltac:(evaluate) g). exact Ha.
  - destruct (revisions_agree NetURL.Parse "https://example.com/repo.git")
      as [_ H].
    destruct (H (mkURL "https" "" None "example.com" "/repo.git" ""
                       false false "" "" "")
                "https" "xample.com/repo.git") as [HA HB];
      [evaluate | evaluate | discriminate |].
    now rewrite HA, HB.
Defined.

(** C10 fails as stated: on ["a"] the two revisions return different
    URLs. *)
Lemma revisions_differ :
  parses_to (Gogiturl.Parse NetURL.Parse "a") "" "" "a"
  /\ parses_to (Part000.Parse NetURL.Parse "a") "file" "" "a"
  /\ result (Gogiturl.Parse NetURL.Parse "a")
     <> result (Part000.Parse NetURL.Parse "a").
Proof.
  split; [run_to|]. split; [run_to|]. vm_compute. discriminate.
Qed.

(** ** Further properties of the sources *)

(** *** Helper facts *)

Lemma Index_byte_at (c : ascii) (s : string) (j : Z) :
  strings_Index s (String c EmptyString) = j -> 0 <= j ->
  byte_at s j = Some c /\ forall k, 0 <= k < j -> byte_at s k <> Some c.
Proof.
  intros Hj Hpos.
  destruct (Index_byte_found c s j Hj Hpos) as (pre & post & -> & Hlen & Hno).
  split.
  - rewrite <- Hlen. rewrite <- (Z.add_0_r (len pre)).
    now rewrite byte_at_app_right by lia.
  - intros k Hk. rewrite byte_at_app_left by lia.
    now apply Index_byte_absent.
Qed.

Lemma Index_byte_none (c : ascii) (s : string) :
  strings_Index s (String c EmptyString) < 0 <->
  forall k, 0 <= k -> byte_at s k <> Some c.
Proof.
  split.
  - intros Hno k _. apply Index_byte_absent.
    pose proof (Index_byte_bounds c s). lia.
  - intros Hall.
    destruct (Z.lt_ge_cases (strings_Index s (String c EmptyString)) 0)
      as [H|H]; [exact H|exfalso].
    destruct (Index_byte_at c s _ eq_refl H) as [Hat _].
    exact (Hall _ H Hat).
Qed.

Lemma prefix_slashes (path : string) :
  String.prefix "//" path = true ->
  exists rest, path = ("//" ++ rest)%string.
Proof.
  destruct path as [|a [|b rest]]; cbn [String.prefix];
    repeat destruct (ascii_dec _ _); intros H; try discriminate H.
  subst. now exists rest.
Qed.

Lemma prefix_slashes_app (rest : string) :
  String.prefix "//" ("//" ++ rest) = true.
Proof.
  cbn [String.append String.prefix].
  repeat (destruct (ascii_dec _ _); [|congruence]). now destruct rest.
Qed.

Lemma getscheme_loop_error_scheme rawurl urllen i rest scheme rem e :
  Part000.getscheme_loop rawurl urllen i rest = (scheme, rem, Some e) ->
  scheme = EmptyString.
Proof.
  revert i. induction rest as [|c rest IH]; intros i H; simpl in H.
  - now injection H.
  - destruct (is_letter c); [now apply IH in H|].
    destruct (is_scheme_extra c).
    + destruct (i =? 0); [now injection H | now apply IH in H].
    + destruct (c =? ":")%char; [|now injection H].
      destruct ((i >? 0) && (urllen >=? i + 3)
                && (slice rawurl (i + 1) (i + 3) =? "//")%string);
        [|now injection H].
      destruct (urllen >=? i + 4); discriminate.
Qed.

(** Every way [Gogiturl.Parse] can run. *)
Lemma Gogiturl_Parse_cases (p : Parser) (rawurl : string) :
  Gogiturl.Parse p rawurl =
  match p rawurl with
  | inl u => mkRun (Ok (mkGitURL u)) [rawurl]
  | inr e =>
      if Gogiturl.shorthand_candidate p rawurl then
        match Part000.mungeGitURL rawurl with
        | (_, Some _) => mkRun (Err Gogiturl.ErrMissingDelimiter) [rawurl]
        | (mungedurl, None) =>
            mkRun match p mungedurl with
                  | inl u => strip_first u
                  | inr e' => Err e'
                  end
                  [rawurl; mungedurl]
        end
      else mkRun (Err e) [rawurl]
  end.
Proof.
  destruct (p rawurl) as [u|e] eqn:Hp.
  - now apply Gogiturl_Parse_direct.
  - destruct (Gogiturl.shorthand_candidate p rawurl) eqn:Hc.
    + now apply Gogiturl_Parse_candidate.
    + unfold Gogiturl.shorthand_candidate in Hc. rewrite Hp in Hc.
      unfold Gogiturl.Parse. rewrite parse_unfold, Hp.
      destruct (strings_Index rawurl ":" <? 0); [reflexivity|].
      destruct (Gogiturl.getScheme rawurl) as [[scheme path] err].
      cbn [negb andb] in Hc. apply negb_false_iff in Hc. now rewrite Hc.
Qed.

(** *** The scheme scans *)

(** X1.  [getScheme] of [gogiturl.go] succeeds exactly on a scheme
    token, a colon and any text, and returns the token and the text after
    the colon. *)
Theorem getScheme_splits_at_colon (rawurl scheme path : string) :
  Gogiturl.getScheme rawurl = (scheme, path, None) <->
  scheme_token scheme = true
  /\ rawurl = (scheme ++ String ":" path)%string.
Proof.
  split.
  - apply getScheme_inv.
  - intros [Htok ->]. now apply getScheme_token.
Qed.

(** X2.  Both scans return an empty scheme exactly when they return an
    error, so the scheme halves of the guards on line 60 of [gogiturl.go]
    and on line 27 of the second file never decide anything. *)
Theorem scan_scheme_empty_iff_error (rawurl : string) :
  (fst (fst (Gogiturl.getScheme rawurl)) = EmptyString
   <-> snd (Gogiturl.getScheme rawurl) <> None)
  /\ (fst (fst (Part000.getscheme rawurl)) = EmptyString
      <-> snd (Part000.getscheme rawurl) <> None).
Proof.
  split.
  - destruct (Gogiturl.getScheme rawurl) as [[scheme path] [e|]] eqn:Hs;
      cbn [fst snd].
    + split; [discriminate|]. intros _.
      exact (getScheme_loop_error_scheme _ _ _ _ _ _ Hs).
    + apply getScheme_inv in Hs as [Htok _].
      split; [intros ->; discriminate | intros H; now elim H].
  - destruct (Part000.getscheme rawurl) as [[scheme rem] [e|]] eqn:Hs;
      cbn [fst snd].
    + split; [discriminate|]. intros _.
      exact (getscheme_loop_error_scheme _ _ _ _ _ _ _ Hs).
    + apply getscheme_scheme_nonempty in Hs.
      split; [contradiction | intros H; now elim H].
Qed.

Lemma getscheme_inv (rawurl scheme rem : string) :
  Part000.getscheme rawurl = (scheme, rem, None) ->
  scheme_token scheme = true
  /\ exists rest, rawurl = (scheme ++ "://" ++ rest)%string
                  /\ rem = slice_from rest 1.
Proof.
  intros Hs. destruct (getscheme_refines _ _ _ Hs) as [path Ha].
  apply getScheme_inv in Ha as [Htok ->]. split; [exact Htok|].
  destruct (String.prefix "//" path) eqn:Hpre.
  - apply prefix_slashes in Hpre as [rest ->]. exists rest.
    split; [reflexivity|].
    pose proof (getscheme_token scheme rest Htok) as Hb.
    change (scheme ++ "://" ++ rest)%string
      with (scheme ++ String ":" ("//" ++ rest))%string in Hb.
    rewrite Hb in Hs. now injection Hs.
  - exfalso. apply (getscheme_no_slashes scheme path Htok Hpre).
    now rewrite Hs.
Qed.

(** X3.  [getscheme] of the second file succeeds exactly on a scheme
    token followed by [://] and any text, and the remainder it returns is
    that text without its first byte. *)
Theorem getscheme_splits_at_slashes (rawurl scheme rem : string) :
  Part000.getscheme rawurl = (scheme, rem, None) <->
  scheme_token scheme = true
  /\ exists rest, rawurl = (scheme ++ "://" ++ rest)%string
                  /\ rem = slice_from rest 1.
Proof.
  split; [apply getscheme_inv|].
  intros (Htok & rest & -> & ->). now apply getscheme_token.
Qed.

(** X4.  The scan of the second file finds a scheme exactly when the
    scan of [gogiturl.go] finds the same token and two slashes follow its
    colon. *)
Theorem scans_agree_before_slashes (rawurl scheme : string) :
  (exists rem, Part000.getscheme rawurl = (scheme, rem, None)) <->
  (exists path, Gogiturl.getScheme rawurl = (scheme, path, None)
                /\ String.prefix "//" path = true).
Proof.
  split.
  - intros [rem Hs].
    apply getscheme_inv in Hs as (Htok & rest & -> & _).
    exists ("//" ++ rest)%string. split.
    + exact (getScheme_token scheme ("//" ++ rest) Htok).
    + apply prefix_slashes_app.
  - intros (path & Ha & Hpre).
    apply getScheme_inv in Ha as [Htok ->].
    apply prefix_slashes in Hpre as [rest ->].
    exists (slice_from rest 1).
    exact (getscheme_token scheme rest Htok).
Qed.

(** *** Munging *)

Lemma byte_at_in_range (s : string) (d : Z) (c : ascii) :
  byte_at s d = Some c -> 0 <= d < len s.
Proof.
  unfold byte_at. destruct (Z.ltb_spec d 0); [discriminate|].
  intros Hat. split; [assumption|].
  unfold len. destruct (Z.lt_ge_cases d (Z.of_nat (String.length s)))
    as [H'|H']; [assumption|exfalso].
  assert (Hn : (String.length s <= Z.to_nat d)%nat) by lia.
  revert Hat Hn. generalize (Z.to_nat d) as n. clear. intros n.
  revert n. induction s as [|a s IH]; intros [|n] Hat Hn;
    simpl in *; try discriminate; try lia.
  apply (IH n Hat). lia.
Qed.

Lemma munged_at_length rawurl d c :
  byte_at rawurl d = Some c -> len (munged_at rawurl d) = len rawurl + 6.
Proof.
  intros Hat. apply byte_at_in_range in Hat.
  unfold munged_at. rewrite !len_app, (len_cons "/").
  change (len "ssh://") with 6.
  unfold slice_to, slice_from, len in *.
  rewrite length_take, length_drop. lia.
Qed.

Lemma munged_at_after rawurl d c k :
  byte_at rawurl d = Some c -> d < k ->
  byte_at (munged_at rawurl d) (6 + k) = byte_at rawurl k.
Proof.
  intros Hat Hk. apply byte_at_in_range in Hat.
  assert (Hlen : len (slice_to rawurl d) = d).
  { unfold slice_to, len in *. rewrite length_take. lia. }
  unfold munged_at. change 6 with (len "ssh://").
  rewrite byte_at_app_right by lia.
  replace k with (len (slice_to rawurl d) + (k - d)) at 1 by lia.
  rewrite byte_at_app_right by lia.
  replace (k - d) with ((k - d - 1) + 1) by lia.
  rewrite byte_at_cons by lia.
  rewrite byte_at_slice_from by lia. f_equal. lia.
Qed.

Lemma mungeGitURL_found rawurl m :
  Part000.mungeGitURL rawurl = (m, None) ->
  exists d, first_colon_from rawurl (Z.max 0 (strings_Index rawurl "]")) d
            /\ m = munged_at rawurl d.
Proof.
  intros H. pose proof H as H0. unfold Part000.mungeGitURL in H.
  assert (Hd : exists d,
             first_colon_from rawurl (Z.max 0 (strings_Index rawurl "]")) d).
  { destruct (Z.ltb_spec (strings_Index rawurl "]") 0) as [Hi|Hi].
    - destruct (Z.ltb_spec (strings_Index rawurl ":") 0) as [Hj|Hj];
        [discriminate|].
      destruct (Index_byte_at ":" rawurl _ eq_refl Hj) as [Hat Hbefore].
      exists (strings_Index rawurl ":"). rewrite Z.max_l by lia.
      split; [assumption|]. split; [assumption|].
      intros k Hk. apply Hbefore. lia.
    - set (i := strings_Index rawurl "]") in *.
      destruct (Z.ltb_spec (strings_Index (slice_from rawurl i) ":") 0)
        as [Hj|Hj]; [discriminate|].
      destruct (Index_byte_at ":" (slice_from rawurl i) _ eq_refl Hj)
        as [Hat Hbefore].
      exists (i + strings_Index (slice_from rawurl i) ":").
      rewrite Z.max_r by lia. split; [lia|]. split.
      + now rewrite <- byte_at_slice_from by lia.
      + intros k Hk. replace k with (i + (k - i)) by lia.
        rewrite <- byte_at_slice_from by lia. apply Hbefore. lia. }
  destruct Hd as [d Hd]. exists d. split; [exact Hd|].
  rewrite (mungeGitURL_at rawurl d Hd) in H0. now injection H0.
Qed.

Lemma mungeGitURL_error rawurl x e :
  Part000.mungeGitURL rawurl = (x, Some e) ->
  x = EmptyString /\ e = Part000.ErrMissingDelimiter.
Proof.
  unfold Part000.mungeGitURL.
  match goal with
  | |- (if ?b then _ else _) = _ -> _ => destruct b; [|discriminate]
  end.
  intros H. now injection H as <- <-.
Qed.

(** X5.  [mungeGitURL] succeeds exactly when the input has a colon at
    or after its first closing bracket, or anywhere when it has no
    bracket, and then returns the input behind [ssh://] with the first
    such colon turned into a slash; it fails with the missing delimiter
    error exactly when there is no such colon. *)
Theorem mungeGitURL_delimiter_rule (rawurl : string) :
  (forall m,
      Part000.mungeGitURL rawurl = (m, None) <->
      exists d,
        first_colon_from rawurl (Z.max 0 (strings_Index rawurl "]")) d
        /\ m = munged_at rawurl d)
  /\ (Part000.mungeGitURL rawurl = ("", Some Part000.ErrMissingDelimiter)
      <-> forall k, Z.max 0 (strings_Index rawurl "]") <= k ->
                    byte_at rawurl k <> Some ":"%char).
Proof.
  split.
  - intros m. split; [apply mungeGitURL_found|].
    intros (d & Hd & ->). now apply mungeGitURL_at.
  - split.
    + intros Hfail k Hk Hat.
      destruct (Z.ltb_spec (strings_Index rawurl "]") 0) as [Hi|Hi].
      * rewrite Z.max_l in Hk by lia.
        assert (Hfirst : exists d, first_colon_from rawurl 0 d).
        { destruct (Z.lt_ge_cases (strings_Index rawurl ":") 0) as [Hj|Hj].
          - pose proof (proj1 (Index_byte_none ":" rawurl) Hj) as Hn.
            now elim (Hn k Hk).
          - destruct (Index_byte_at ":" rawurl _ eq_refl Hj) as [Ha Hb].
            exists (strings_Index rawurl ":").
            split; [exact Hj|]. split; [exact Ha|].
            intros k' Hk'. apply Hb. lia. }
        destruct Hfirst as [d Hd].
        rewrite <- (Z.max_l 0 (strings_Index rawurl "]")) in Hd by lia.
        rewrite (mungeGitURL_at rawurl d Hd) in Hfail. discriminate.
      * rewrite Z.max_r in Hk by lia.
        set (i := strings_Index rawurl "]") in *.
        assert (Hfirst : exists d, first_colon_from rawurl i d).
        { destruct (Z.lt_ge_cases
                      (strings_Index (slice_from rawurl i) ":") 0)
            as [Hj|Hj].
          - pose proof (proj1 (Index_byte_none ":" (slice_from rawurl i)) Hj)
              as Hn.
            exfalso. apply (Hn (k - i)); [lia|].
            rewrite byte_at_slice_from by lia.
            now replace (i + (k - i)) with k by lia.
          - destruct (Index_byte_at ":" (slice_from rawurl i) _ eq_refl Hj)
              as [Ha Hb].
            exists (i + strings_Index (slice_from rawurl i) ":").
            split; [lia|]. split.
            + now rewrite <- byte_at_slice_from by lia.
            + intros k' Hk'. replace k' with (i + (k' - i)) by lia.
              rewrite <- byte_at_slice_from by lia. apply Hb. lia. }
        destruct Hfirst as [d Hd].
        rewrite <- (Z.max_r 0 i) in Hd by lia.
        rewrite (mungeGitURL_at rawurl d Hd) in Hfail. discriminate.
    + intros Hnone.
      destruct (Part000.mungeGitURL rawurl) as [x [e|]] eqn:Hm.
      * now destruct (mungeGitURL_error _ _ _ Hm) as [-> ->].
      * exfalso. apply mungeGitURL_found in Hm as (d & (Hid & Hat & _) & _).
        exact (Hnone d Hid Hat).
Qed.

(** X6.  Munging is a one-for-one substitution: the munged string is
    [ssh://] followed by the input with exactly one byte changed, a colon
    that became a slash, so it is six bytes longer than the input. *)
Theorem munging_changes_one_byte (rawurl m : string) :
  Part000.mungeGitURL rawurl = (m, None) ->
  len m = len rawurl + 6
  /\ slice_to m 6 = "ssh://"
  /\ exists d,
      byte_at rawurl d = Some ":"%char
      /\ byte_at m (6 + d) = Some "/"%char
      /\ forall k, 0 <= k -> k <> d -> byte_at m (6 + k) = byte_at rawurl k.
Proof.
  intros Hm. apply mungeGitURL_found in Hm as (d & (Hid & Hat & _) & ->).
  pose proof (byte_at_in_range _ _ _ Hat) as Hr.
  destruct (munged_at_bytes rawurl d) as [Hslash Hbefore];
    [lia | exact Hat |].
  split; [exact (munged_at_length rawurl d _ Hat)|].
  split; [reflexivity|].
  exists d. split; [exact Hat|]. split; [exact Hslash|].
  intros k Hk Hne. destruct (Z.lt_ge_cases k d) as [Hlt|Hge].
  - apply Hbefore. lia.
  - apply (munged_at_after rawurl d ":"); [exact Hat | lia].
Qed.

Lemma munging_changes_one_byte_witness :
  len "ssh://user@host.xz/path/to/repo.git"
  = len "user@host.xz:path/to/repo.git" + 6
  /\ byte_at "ssh://user@host.xz/path/to/repo.git" (6 + 12)
     = Some "/"%char.
Proof.
  destruct (munging_changes_one_byte
              "user@host.xz:path/to/repo.git"
              "ssh://user@host.xz/path/to/repo.git")
    as (Hlen & _ & _); [evaluate|].
  split; [exact Hlen | reflexivity].
Defined.

(** *** [Parse] of [gogiturl.go] *)

Lemma munged_not_candidate (p : Parser) (x : string) :
  Gogiturl.shorthand_candidate p ("ssh://" ++ x) = false.
Proof.
  unfold Gogiturl.shorthand_candidate. destruct (p _); [reflexivity|].
  rewrite getScheme_ssh. apply andb_false_r.
Qed.

Lemma strip_first_inv (u : URL) (g : GitURL) :
  strip_first u = Ok g ->
  exists c, Path u = String c (Path (url_URL g))
            /\ set_Path u (Path (url_URL g)) = url_URL g.
Proof.
  unfold strip_first. destruct (Path u) as [|c path]; [discriminate|].
  intros [= <-]. exists c. split; reflexivity.
Qed.

Lemma strip_first_not_error (u : URL) (e : error) : strip_first u <> Err e.
Proof. unfold strip_first. destruct (Path u); discriminate. Qed.

Lemma strip_first_panics (u : URL) (msg : string) :
  strip_first u = Panic msg -> Path u = EmptyString.
Proof. unfold strip_first. destruct (Path u); [reflexivity|discriminate]. Qed.

Lemma set_Path_same (u : URL) : set_Path u (Path u) = u.
Proof. now destruct u. Qed.

(** X7.  [Parse] of [gogiturl.go] hands the input to [url.Parse], and at
    most one more string after it: the munged input, which is never
    munged again. *)
Theorem parser_called_at_most_twice (p : Parser) (rawurl : string) :
  parsed (Gogiturl.Parse p rawurl) = [rawurl]
  \/ exists m,
      Part000.mungeGitURL rawurl = (m, None)
      /\ parsed (Gogiturl.Parse p rawurl) = [rawurl; m]
      /\ Gogiturl.shorthand_candidate p m = false.
Proof.
  rewrite Gogiturl_Parse_cases.
  destruct (p rawurl) as [u|e]; [now left|].
  destruct (Gogiturl.shorthand_candidate p rawurl); [|now left].
  destruct (Part000.mungeGitURL rawurl) as [m [err|]] eqn:Hm; [now left|].
  right. exists m. split; [reflexivity|]. split; [reflexivity|].
  destruct (mungeGitURL_form _ _ Hm) as [x ->]. apply munged_not_candidate.
Qed.

(** X8.  [Parse] of [gogiturl.go] fails with an error in exactly three
    ways: with the direct-parse error of an input that is no shorthand
    candidate; with the missing delimiter error of a candidate that cannot
    be munged; and with the error of the re-parse of a munged candidate,
    the direct-parse error being dropped. *)
Theorem failure_cases (p : Parser) (rawurl : string) (e : error) :
  result (Gogiturl.Parse p rawurl) = Err e <->
  (Gogiturl.shorthand_candidate p rawurl = false /\ p rawurl = inr e)
  \/ (Gogiturl.shorthand_candidate p rawurl = true
      /\ snd (Part000.mungeGitURL rawurl) <> None
      /\ e = Gogiturl.ErrMissingDelimiter)
  \/ (Gogiturl.shorthand_candidate p rawurl = true
      /\ exists m, Part000.mungeGitURL rawurl = (m, None) /\ p m = inr e).
Proof.
  rewrite Gogiturl_Parse_cases.
  destruct (p rawurl) as [u|e0] eqn:Hp.
  - cbn [result]. split; [discriminate|].
    intros [[_ H]|[(Hc & _)|(Hc & _)]]; [discriminate| |];
      unfold Gogiturl.shorthand_candidate in Hc; rewrite Hp in Hc;
      discriminate.
  - destruct (Gogiturl.shorthand_candidate p rawurl) eqn:Hc.
    + destruct (Part000.mungeGitURL rawurl) as [m [err|]] eqn:Hm;
        cbn [result snd].
      * split.
        -- intros [= <-]. right. left. repeat split. discriminate.
        -- intros [[H _]|[(_ & _ & ->)|(_ & m' & H & _)]];
             [discriminate|reflexivity|discriminate].
      * split.
        -- intros H. right. right. split; [reflexivity|]. exists m.
           split; [reflexivity|].
           destruct (p m) as [u|e']; [|congruence].
           now elim (strip_first_not_error u e).
        -- intros [[H _]|[(_ & H & _)|(_ & m' & H & Hm')]];
             [discriminate | now elim H |].
           injection H as <-. now rewrite Hm'.
    + cbn [result]. split.
      * intros [= <-]. now left.
      * intros [[_ H]|[(H & _)|(H & _)]]; [congruence|discriminate..].
Qed.

(** X9.  [Parse] of [gogiturl.go] panics exactly when the input is a
    shorthand candidate whose munged form the generic parser accepts with
    an empty path. *)
Theorem panic_cases (p : Parser) (rawurl : string) :
  (exists msg, result (Gogiturl.Parse p rawurl) = Panic msg) <->
  Gogiturl.shorthand_candidate p rawurl = true
  /\ exists m u, Part000.mungeGitURL rawurl = (m, None)
                 /\ p m = inl u /\ Path u = EmptyString.
Proof.
  rewrite Gogiturl_Parse_cases.
  destruct (p rawurl) as [u|e0] eqn:Hp.
  - cbn [result]. split; [intros [msg H]; discriminate|].
    intros [Hc _]. unfold Gogiturl.shorthand_candidate in Hc.
    rewrite Hp in Hc. discriminate.
  - destruct (Gogiturl.shorthand_candidate p rawurl) eqn:Hc.
    + destruct (Part000.mungeGitURL rawurl) as [m [err|]] eqn:Hm;
        cbn [result].
      * split; [intros [msg H]; discriminate|].
        intros (_ & m' & u & H & _). discriminate.
      * split.
        -- intros [msg H]. split; [reflexivity|].
           destruct (p m) as [u|e'] eqn:Hpm; [|discriminate].
           exists m, u. split; [reflexivity|]. split; [exact Hpm|].
           now apply (strip_first_panics u msg).
        -- intros (_ & m' & u & H & Hpm & Hpath). injection H as <-.
           rewrite Hpm. unfold strip_first. rewrite Hpath. eauto.
    + cbn [result]. split; [intros [msg H]; discriminate|].
      intros [H _]. discriminate.
Qed.

(** X10.  [Parse] of [gogiturl.go] succeeds in exactly two ways: with
    the URL of the direct parse, unchanged; or, for a shorthand candidate,
    with the URL of the re-parse less the first byte of its path. *)
Theorem success_cases (p : Parser) (rawurl : string) (g : GitURL) :
  result (Gogiturl.Parse p rawurl) = Ok g <->
  p rawurl = inl (url_URL g)
  \/ (Gogiturl.shorthand_candidate p rawurl = true
      /\ exists m u c,
          Part000.mungeGitURL rawurl = (m, None)
          /\ p m = inl u
          /\ Path u = String c (Path (url_URL g))
          /\ set_Path u (Path (url_URL g)) = url_URL g).
Proof.
  rewrite Gogiturl_Parse_cases.
  destruct (p rawurl) as [u|e0] eqn:Hp.
  - cbn [result]. split.
    + intros [= <-]. now left.
    + intros [[= ->]|[Hc _]]; [now destruct g|].
      unfold Gogiturl.shorthand_candidate in Hc. rewrite Hp in Hc.
      discriminate.
  - destruct (Gogiturl.shorthand_candidate p rawurl) eqn:Hc.
    + destruct (Part000.mungeGitURL rawurl) as [m [err|]] eqn:Hm;
        cbn [result].
      * split; [discriminate|].
        intros [H|(_ & m' & u & c & H & _)]; discriminate.
      * split.
        -- intros H. right. split; [reflexivity|].
           destruct (p m) as [u|e'] eqn:Hpm; [|discriminate].
           destruct (strip_first_inv u g H) as (c & Hpath & Hset).
           now exists m, u, c.
        -- intros [H|(_ & m' & u & c & H & Hpm & Hpath & Hset)];
             [discriminate|].
           injection H as <-. rewrite Hpm. unfold strip_first.
           rewrite Hpath, Hset. now destruct g.
    + cbn [result]. split; [discriminate|].
      intros [H|[H _]]; discriminate.
Qed.



(** *** [Parse] of the second file *)

(** Every way [Part000.Parse] can run. *)
Lemma Part000_Parse_cases (p : Parser) (rawurl : string) :
  Part000.Parse p rawurl =
  match Part000.getscheme rawurl with
  | (_, rem, None) =>
      if (rem =? "")%string then mkRun (Err Part000.ErrSchemeOnly) []
      else Part000.parse_and_revert p rawurl false
  | (_, _, Some _) =>
      if strings_Index rawurl ":" <? 0
      then Part000.parse_and_revert p ("file:///" ++ rawurl) true
      else match Part000.mungeGitURL rawurl with
           | (_, Some err) => mkRun (Err err) []
           | (m, None) => Part000.parse_and_revert p m true
           end
  end.
Proof.
  unfold Part000.Parse.
  destruct (Part000.getscheme rawurl) as [[scheme rem] [e|]] eqn:Hs;
    [reflexivity|].
  destruct rem as [|c rem]; [reflexivity|].
  apply getscheme_scheme_nonempty in Hs.
  destruct (String.eqb_spec scheme ""); [contradiction|reflexivity].
Qed.

Lemma parse_and_revert_not_error (p : Parser) (s : string) (munged : bool)
      (e : error) :
  result (Part000.parse_and_revert p s munged) <> Err e.
Proof.
  unfold Part000.parse_and_revert. destruct (p s) as [u|e'];
    cbn [result]; [|discriminate].
  destruct munged; [apply strip_first_not_error|discriminate].
Qed.

Lemma parse_and_revert_parsed (p : Parser) (s : string) (munged : bool) :
  parsed (Part000.parse_and_revert p s munged) = [s].
Proof. unfold Part000.parse_and_revert. now destruct (p s). Qed.

Lemma parse_and_revert_failure (p : Parser) (s : string) (munged : bool)
      (e : error) :
  p s = inr e ->
  exists msg, result (Part000.parse_and_revert p s munged) = Panic msg.
Proof.
  intros Hp. unfold Part000.parse_and_revert. rewrite Hp. cbn. eauto.
Qed.

Lemma slice_from_1_empty (rest : string) :
  slice_from rest 1 = EmptyString <-> len rest <= 1.
Proof.
  destruct rest as [|a [|b rest]].
  - split; [intros _; unfold len; cbn; lia|reflexivity].
  - split; [intros _; unfold len; cbn; lia|reflexivity].
  - split.
    + intros H. cbn in H. discriminate H.
    + rewrite !len_cons. pose proof (len_nonneg rest). lia.
Qed.

(** X12.  [Parse] of the second file never returns an error of
    [url.Parse]: the only errors it returns are the scheme-only error and
    the missing delimiter error, and it returns them without having
    called [url.Parse]. *)
Theorem part000_errors_are_its_own (p : Parser) (rawurl : string)
        (e : error) :
  result (Part000.Parse p rawurl) = Err e ->
  parsed (Part000.Parse p rawurl) = []
  /\ (e = Part000.ErrSchemeOnly \/ e = Part000.ErrMissingDelimiter).
Proof.
  rewrite Part000_Parse_cases.
  destruct (Part000.getscheme rawurl) as [[scheme rem] [e'|]].
  - destruct (strings_Index rawurl ":" <? 0).
    + intros H. now elim (parse_and_revert_not_error _ _ _ _ H).
    + destruct (Part000.mungeGitURL rawurl) as [m [err|]] eqn:Hm.
      * cbn [result parsed]. intros [= <-]. split; [reflexivity|].
        right. now destruct (mungeGitURL_error _ _ _ Hm).
      * intros H. now elim (parse_and_revert_not_error _ _ _ _ H).
  - destruct (rem =? "")%string.
    + cbn [result parsed]. intros [= <-]. split; [reflexivity|now left].
    + intros H. now elim (parse_and_revert_not_error _ _ _ _ H).
Qed.

Lemma part000_errors_are_its_own_witness :
  result (Part000.Parse NetURL.Parse "[::1]")
  = Err Part000.ErrMissingDelimiter
  /\ parsed (Part000.Parse NetURL.Parse "[::1]") = [].
Proof.
  split; [evaluate|].
  apply (part000_errors_are_its_own NetURL.Parse "[::1]"
                                    Part000.ErrMissingDelimiter).
  evaluate.
Defined.

(** X13.  [Parse] of the second file calls [url.Parse] at most once,
    and panics whenever [url.Parse] rejects the string it is given. *)
Theorem part000_rejected_parse_panics (p : Parser) (rawurl : string) :
  (length (parsed (Part000.Parse p rawurl)) <= 1)%nat
  /\ forall s e,
      In s (parsed (Part000.Parse p rawurl)) -> p s = inr e ->
      exists msg, result (Part000.Parse p rawurl) = Panic msg.
Proof.
  rewrite Part000_Parse_cases.
  assert (Hrun : forall s munged,
             (length (parsed (Part000.parse_and_revert p s munged)) <= 1)%nat
             /\ forall s' e,
                 In s' (parsed (Part000.parse_and_revert p s munged)) ->
                 p s' = inr e ->
                 exists msg,
                   result (Part000.parse_and_revert p s munged) = Panic msg).
  { intros s munged. rewrite parse_and_revert_parsed. split; [cbn; lia|].
    intros s' e [<-|[]] Hp. now apply (parse_and_revert_failure p s munged e). }
  destruct (Part000.getscheme rawurl) as [[scheme rem] [e'|]].
  - destruct (strings_Index rawurl ":" <? 0); [apply Hrun|].
    destruct (Part000.mungeGitURL rawurl) as [m [err|]]; [|apply Hrun].
    cbn [parsed]. split; [cbn; lia|]. intros s e [].
  - destruct (rem =? "")%string; [|apply Hrun].
    cbn [parsed]. split; [cbn; lia|]. intros s e [].
Qed.

Lemma part000_rejected_parse_panics_witness :
  exists msg,
    result (Part000.Parse NetURL.Parse "http://a b/") = Panic msg.
Proof.
  destruct (part000_rejected_parse_panics NetURL.Parse "http://a b/")
    as [_ H].
  apply (H "http://a b/"
           (url_Error "parse" "http://a b/"
                      ("invalid character " ++ NetURL.Quote " "
                       ++ " in host name"))).
  - vm_compute. now left.
  - evaluate.
Defined.

(** X14.  [Parse] of the second file fails with the scheme-only error
    exactly on a scheme token followed by [://] and at most one more
    byte. *)
Theorem scheme_only_cases (p : Parser) (rawurl : string) :
  result (Part000.Parse p rawurl) = Err Part000.ErrSchemeOnly <->
  exists tok rest,
    scheme_token tok = true
    /\ rawurl = (tok ++ "://" ++ rest)%string
    /\ len rest <= 1.
Proof.
  split.
  - rewrite Part000_Parse_cases.
    destruct (Part000.getscheme rawurl) as [[scheme rem] [e'|]] eqn:Hs.
    + destruct (strings_Index rawurl ":" <? 0).
      * intros H. now elim (parse_and_revert_not_error _ _ _ _ H).
      * destruct (Part000.mungeGitURL rawurl) as [m [err|]] eqn:Hm.
        -- destruct (mungeGitURL_error _ _ _ Hm) as [_ ->]. discriminate.
        -- intros H. now elim (parse_and_revert_not_error _ _ _ _ H).
    + destruct (String.eqb_spec rem "") as [->|Hrem].
      * intros _. apply getscheme_inv in Hs as (Htok & rest & -> & Hrest).
        exists scheme, rest. repeat split; auto.
        apply slice_from_1_empty. now symmetry.
      * intros H. now elim (parse_and_revert_not_error _ _ _ _ H).
  - intros (tok & rest & Htok & -> & Hlen).
    unfold Part000.Parse. rewrite (getscheme_token tok rest Htok).
    apply slice_from_1_empty in Hlen. now rewrite Hlen.
Qed.

(** *** Both revisions *)

(** X15.  A URL that either revision returns is the URL that
    [url.Parse] gave for the last string handed to it, with at most the
    first byte of [Path] removed: every other field, [RawPath] included,
    is left as the parser set it. *)
Theorem only_path_is_touched (p : Parser) (rawurl : string) (g : GitURL) :
  (result (Gogiturl.Parse p rawurl) = Ok g ->
   exists u,
     p (last (parsed (Gogiturl.Parse p rawurl)) rawurl) = inl u
     /\ set_Path u (Path (url_URL g)) = url_URL g
     /\ (Path u = Path (url_URL g)
         \/ exists c, Path u = String c (Path (url_URL g))))
  /\ (result (Part000.Parse p rawurl) = Ok g ->
      exists u,
        p (last (parsed (Part000.Parse p rawurl)) rawurl) = inl u
        /\ set_Path u (Path (url_URL g)) = url_URL g
        /\ (Path u = Path (url_URL g)
            \/ exists c, Path u = String c (Path (url_URL g)))).
Proof.
  assert (Hrun : forall s munged,
             result (Part000.parse_and_revert p s munged) = Ok g ->
             exists u,
               p (last (parsed (Part000.parse_and_revert p s munged)) rawurl)
               = inl u
               /\ set_Path u (Path (url_URL g)) = url_URL g
               /\ (Path u = Path (url_URL g)
                   \/ exists c, Path u = String c (Path (url_URL g)))).
  { intros s munged. rewrite parse_and_revert_parsed. cbn [last].
    unfold Part000.parse_and_revert.
    destruct (p s) as [u|e]; cbn [result]; [|discriminate].
    destruct munged.
    - intros H. destruct (strip_first_inv u g H) as (c & Hpath & Hset).
      exists u. eauto.
    - intros [= <-]. exists u. cbn [url_URL].
      split; [reflexivity|]. split; [apply set_Path_same | now left]. }
  split.
  - rewrite Gogiturl_Parse_cases.
    destruct (p rawurl) as [u|e0] eqn:Hp.
    + cbn [result parsed last]. intros [= <-]. exists u. cbn [url_URL].
      split; [exact Hp|]. split; [apply set_Path_same | now left].
    + destruct (Gogiturl.shorthand_candidate p rawurl);
        [|discriminate].
      destruct (Part000.mungeGitURL rawurl) as [m [err|]];
        cbn [result parsed last]; [discriminate|].
      destruct (p m) as [u|e'] eqn:Hpm; [|discriminate].
      intros H. destruct (strip_first_inv u g H) as (c & Hpath & Hset).
      exists u. eauto.
  - rewrite Part000_Parse_cases.
    destruct (Part000.getscheme rawurl) as [[scheme rem] [e'|]].
    + destruct (strings_Index rawurl ":" <? 0); [apply Hrun|].
      destruct (Part000.mungeGitURL rawurl) as [m [err|]];
        [discriminate|apply Hrun].
    + destruct (rem =? "")%string; [discriminate|apply Hrun].
Qed.

Lemma only_path_is_touched_witness :
  exists u,
    NetURL.Parse "ssh://host.xz/a%2Fb" = inl u
    /\ RawPath u = "/a%2Fb"
    /\ exists g,
        result (Part000.Parse NetURL.Parse "host.xz:a%2Fb") = Ok g
        /\ Path (url_URL g) = "a/b"
        /\ RawPath (url_URL g) = "/a%2Fb".
Proof.
  destruct (only_path_is_touched
              NetURL.Parse "host.xz:a%2Fb"
              (mkGitURL (mkURL "ssh" "" None "host.xz" "a/b" "/a%2Fb"
                               false false "" "" "")))
    as [_ H].
  destruct H as (u & Hu & Hset & _); [evaluate|].
  exists u. split; [exact Hu|].
  split; [exact (f_equal RawPath Hset)|].
  eexists. split; [evaluate|]. split; reflexivity.
Defined.
